(** * The virtualised ticket list of [zendesk_ticket_viewer.cli_urwid]

    A shallow embedding of [TicketList] (src/zendesk_ticket_viewer/cli_urwid.py):
    the prefetching cache ([get_tickets]), the viewport controller ([scroll],
    [refresh_widgets], [render], [keypress]) and the open action
    ([_action_open]), followed by the properties of the specification.

    Modelling conventions.
    - Python integers are [Z].  The attributes [offset] and
      [index_highlighted] are [numpy.int64] scalars from the first
      [numpy.clip] on: a sum or difference that involves one of them is a
      64-bit operation that wraps around, written [int64_add] and
      [int64_sub], and a Python integer outside the 64-bit range cannot be
      added to one: numpy raises [OverflowError].  (Before the first
      [scroll] the attributes are the Python integers 0 of [__init__]; they
      behave as the int64 value 0 for every movement within the 64-bit
      range.)
    - [numpy.clip] on scalars is [minimum (maximum a a_min) a_max]; in
      particular it returns [a_max] when [a_min > a_max] and never raises.
    - A Python list is a [list]; slicing and indexing follow CPython
      (negative indices count from the end, slices are clamped, an index out
      of range raises [IndexError]).
    - The ticket generator is an iterator: [next] either delivers a record or
      raises [StopIteration], and an iterator that has raised [StopIteration]
      keeps raising it (the iterator protocol).  Failures of the source
      other than exhaustion are outside the model.
    - Methods are computations in a state-and-exception monad over the
      [TicketList] object; a mutation done before an exception is raised
      stays done, as in Python.
    - [zenpy]'s ticket objects and the text of a formatted cell are
      parameters: the type [Ticket] and the function [cell_content]. *)

From Stdlib Require Import ZArith List String Bool Lia Arith.
Import ListNotations.
Local Open Scope Z_scope.

Set Implicit Arguments.

(** ** Python and numpy primitives *)

(** [numpy.clip(a, a_min, a_max)] on integer scalars. *)
Definition numpy_clip (a a_min a_max : Z) : Z := Z.min (Z.max a a_min) a_max.

(** [len(l)] as a Python integer. *)
Definition len {A : Type} (l : list A) : Z := Z.of_nat (List.length l).

(** How CPython adjusts one bound of a slice with step 1 to a list of
    length [n] ([PySlice_AdjustIndices]). *)
Definition adjust_index (n i : Z) : Z :=
  if i <? 0 then Z.max (i + n) 0 else Z.min i n.

(** [l[start:stop]]. *)
Definition py_slice {A : Type} (l : list A) (start stop : Z) : list A :=
  let s := adjust_index (len l) start in
  let e := adjust_index (len l) stop in
  firstn (Z.to_nat (e - s)) (skipn (Z.to_nat s) l).

(** The range of [numpy.int64]. *)
Definition int64_min : Z := -9223372036854775808.
Definition int64_max : Z := 9223372036854775807.

(** Whether a Python integer is a value of [numpy.int64]. *)
Definition is_int64 (z : Z) : bool := (int64_min <=? z) && (z <=? int64_max).

(** The 64-bit two's complement value of an integer. *)
Definition wrap64 (z : Z) : Z :=
  (z - int64_min) mod 18446744073709551616 + int64_min.

(** [a + b] and [a - b] on [numpy.int64] scalars. *)
Definition int64_add (a b : Z) : Z := wrap64 (a + b).
Definition int64_sub (a b : Z) : Z := wrap64 (a - b).

(** The exceptions the modelled code can raise. *)
Inductive exn : Type := StopIteration | IndexError | OverflowError.

(** The outcome of running a piece of code: a value, an exception, or a
    loop cut short by the fuel of the model. *)
Inductive outcome (A : Type) : Type :=
| Return (a : A)
| Raise (e : exn)
| OutOfFuel.
Arguments Raise {A} e.
Arguments OutOfFuel {A}.

(** A Python integer as an operand of an int64 operation: numpy converts
    it to [numpy.int64], and raises [OverflowError] when it does not fit. *)
Definition as_int64 (z : Z) : outcome Z :=
  if is_int64 z then Return z else Raise OverflowError.

(** [l[i]]: a negative index counts from the end; out of range raises
    [IndexError]. *)
Definition py_getitem {A : Type} (l : list A) (i : Z) : outcome A :=
  let j := if i <? 0 then i + len l else i in
  if (j <? 0) || (len l <=? j) then Raise IndexError
  else match nth_error l (Z.to_nat j) with
       | Some x => Return x
       | None => Raise IndexError
       end.

(** ** Widgets *)

(** A [TicketCell], possibly wrapped in [urwid.AttrWrap(_, 'important')]. *)
Record TicketCell : Type := mkCell {
  cell_text : string;
  cell_align : option string;
  cell_attr : option string
}.

(** The body of a column: the initial [urwid.Divider()], or the
    [urwid.ListBox] of cells built by [refresh_widgets]. *)
Inductive ColumnBody : Type :=
| Divider
| ListBox (cells : list TicketCell).

Record TicketColumn : Type := mkColumn {
  key : string;
  body : ColumnBody
}.

(** The rows a column shows. *)
Definition column_rows (c : TicketColumn) : list TicketCell :=
  match body c with
  | Divider => []
  | ListBox cells => cells
  end.

(** The keys of [column_meta], in order. *)
Definition column_meta_keys : list string :=
  ["id"; "subject"; "type"; "priority"]%string.

(** [meta.get('align')]: only the ['id'] column sets it. *)
Definition column_align (k : string) : option string :=
  if String.eqb k "id" then Some "right"%string else None.

(** Class attributes of [TicketList]. *)
Definition header_size : Z := 1.
Definition footer_size : Z := 0.
Definition page_speed : Z := 1.
Definition nonbody_overhead : Z := header_size + footer_size.

(** The size urwid hands to a box widget; the code reads its second
    component only, under the name [maxcol]. *)
Definition Size : Type := (option Z * Z)%type.

(** The spec's [visible_capacity(height)]: [maxcol - self.nonbody_overhead]. *)
Definition visible_capacity (size : Size) : Z := snd size - nonbody_overhead.

Section Model.

Context {Ticket : Type}.

(** The text [formatter(ticket.to_dict().get(column.key, ''))] of a cell,
    for the formatter [column_meta] gives the column (or [str]). *)
Variable cell_content : string -> Ticket -> string.

(** ** The record source *)

(** The iterator [self.client.tickets()]: the records it delivers in order
    ([None] from the point where it is exhausted; a source that is [Some]
    everywhere never ends), how many it has delivered, and a count of the
    calls of [next] made on it. *)
Record Generator : Type := mkGenerator {
  source : nat -> option Ticket;
  position : nat;
  next_calls : nat
}.

(** [next(generator)]. *)
Definition next (g : Generator) : outcome Ticket * Generator :=
  match source g (position g) with
  | Some t => (Return t, mkGenerator (source g) (S (position g)) (S (next_calls g)))
  | None => (Raise StopIteration, mkGenerator (source g) (position g) (S (next_calls g)))
  end.

(** ** The [TicketList] object *)

Record TicketList : Type := mkTicketList {
  ticket_generator : Generator;
  _ticket_cache : list Ticket;
  offset : Z;
  index_highlighted : Z;
  contents : list TicketColumn
}.

(** ** The monad of methods *)

Definition M (A : Type) : Type := TicketList -> outcome A * TicketList.

Definition ret {A : Type} (a : A) : M A := fun self => (Return a, self).

Definition bind {A B : Type} (m : M A) (k : A -> M B) : M B :=
  fun self =>
    match m self with
    | (Return a, self') => k a self'
    | (Raise e, self') => (Raise e, self')
    | (OutOfFuel, self') => (OutOfFuel, self')
    end.

Definition out_of_fuel {A : Type} : M A := fun self => (OutOfFuel, self).

(** Reading an attribute of [self], and assigning one. *)
Definition read {A : Type} (f : TicketList -> A) : M A :=
  fun self => (Return (f self), self).

Definition write (f : TicketList -> TicketList) : M unit :=
  fun self => (Return tt, f self).

(** [try: m  except StopIteration: pass]. *)
Definition try_except_StopIteration (m : M unit) : M unit :=
  fun self =>
    match m self with
    | (Raise StopIteration, self') => (Return tt, self')
    | r => r
    end.

(** Lifting the outcome of an operation that does not touch [self]. *)
Definition lift {A : Type} (o : outcome A) : M A := fun self => (o, self).

Notation "x <- m ;; k" := (bind m (fun x => k))
  (at level 61, m at next level, right associativity).
Notation "m ;;; k" := (bind m (fun _ => k))
  (at level 61, right associativity).

(** Assignments to the attributes of [self]. *)
Definition set_ticket_generator (g : Generator) (self : TicketList) : TicketList :=
  mkTicketList g (_ticket_cache self) (offset self) (index_highlighted self)
    (contents self).

Definition set_ticket_cache (c : list Ticket) (self : TicketList) : TicketList :=
  mkTicketList (ticket_generator self) c (offset self) (index_highlighted self)
    (contents self).

Definition set_offset (o : Z) (self : TicketList) : TicketList :=
  mkTicketList (ticket_generator self) (_ticket_cache self) o
    (index_highlighted self) (contents self).

Definition set_index_highlighted (i : Z) (self : TicketList) : TicketList :=
  mkTicketList (ticket_generator self) (_ticket_cache self) (offset self) i
    (contents self).

Definition set_contents (cs : list TicketColumn) (self : TicketList) : TicketList :=
  mkTicketList (ticket_generator self) (_ticket_cache self) (offset self)
    (index_highlighted self) cs.

(** [next(self.ticket_generator)]. *)
Definition next_ticket : M Ticket :=
  fun self =>
    let (r, g) := next (ticket_generator self) in (r, set_ticket_generator g self).

(** [self._ticket_cache.append(t)]. *)
Definition cache_append (t : Ticket) : M unit :=
  write (fun self => set_ticket_cache (_ticket_cache self ++ [t]) self).

(** ** [TicketList.get_tickets] *)

(** The [while True] loop of [get_tickets]: leave when [prefetch_index] is
    below the length of the cache, otherwise append the next record.  Each
    round spends one unit of [fuel]. *)
Fixpoint prefetch_loop (fuel : nat) (prefetch_index : Z) : M unit :=
  cache <- read _ticket_cache ;;
  if prefetch_index <? len cache then ret tt
  else
    match fuel with
    | O => out_of_fuel
    | S fuel' =>
        t <- next_ticket ;;
        cache_append t ;;;
        prefetch_loop fuel' prefetch_index
    end.

(** The number of rounds the loop can need: every round but the last makes
    the cache one longer. *)
Definition loop_fuel (prefetch_index : Z) (cache : list Ticket) : nat :=
  Z.to_nat (prefetch_index + 1 - len cache).

Definition get_tickets (offset limit : Z) : M (list Ticket) :=
  let prefetch_index := 2 * limit + offset in
  cache <- read _ticket_cache ;;
  try_except_StopIteration
    (prefetch_loop (loop_fuel prefetch_index cache) prefetch_index) ;;;
  cache <- read _ticket_cache ;;
  ret (py_slice cache offset (offset + limit)).

(** ** [TicketList.refresh_widgets] *)

(** [enumerate(l)], counting from [i]. *)
Fixpoint enumerate_from {A : Type} (i : nat) (l : list A) : list (nat * A) :=
  match l with
  | [] => []
  | x :: l' => (i, x) :: enumerate_from (S i) l'
  end.

(** The cell built for one ticket of one column. *)
Definition cell_widget (column_key : string) (index_highlighted : Z)
    (row : nat * Ticket) : TicketCell :=
  let (index, ticket) := row in
  let highlighted := Z.of_nat index =? index_highlighted in
  let content :=
    if highlighted && String.eqb column_key "_selected" then ">"%string
    else cell_content column_key ticket in
  mkCell content (column_align column_key)
    (if highlighted then Some "important"%string else None).

(** The body of the loop over [self.contents]: the column gets a new body. *)
Definition refresh_column (visible_tickets : list Ticket) (index_highlighted : Z)
    (column : TicketColumn) : TicketColumn :=
  mkColumn (key column)
    (ListBox (map (cell_widget (key column) index_highlighted)
                (enumerate_from 0 visible_tickets))).

(** The upper bound [refresh_widgets] passes to [numpy.clip]. *)
Definition highlight_bound (size : Size) (visible_tickets : list Ticket) : Z :=
  Z.min (snd size - nonbody_overhead) (len visible_tickets) - 1.

Definition refresh_widgets (size : Size) : M unit :=
  let maxcol := snd size in
  off <- read offset ;;
  visible_tickets <- get_tickets off (maxcol - nonbody_overhead) ;;
  hi <- read index_highlighted ;;
  let index_highlighted := numpy_clip hi 0 (highlight_bound size visible_tickets) in
  write (fun self =>
    set_contents
      (map (refresh_column visible_tickets index_highlighted) (contents self)) self).

(** ** [TicketList.scroll], [render] *)

(** The sums and differences of [scroll] are 64-bit operations: the
    attributes are [numpy.int64], and [movement], a Python integer, is
    converted to [numpy.int64] by the first of them. *)
Definition scroll (size : Size) (movement : Z) : M unit :=
  let maxcol := snd size in
  hi <- read index_highlighted ;;
  movement <- lift (as_int64 movement) ;;
  let can_move_to :=
    numpy_clip (int64_add hi movement) 0 (maxcol - nonbody_overhead - 1) in
  let movement := int64_sub movement (int64_sub can_move_to hi) in
  write (set_index_highlighted can_move_to) ;;;
  off <- read offset ;;
  cache <- read _ticket_cache ;;
  write (set_offset (numpy_clip (int64_add off movement) 0 (len cache - 1))) ;;;
  refresh_widgets size.

(** [render] up to the call into [urwid.Columns.render]. *)
Definition render (size : Size) : M unit := scroll size 0.

(** ** [TicketList._action_open], [keypress] *)

Definition _action_open : M unit :=
  cache <- read _ticket_cache ;;
  off <- read offset ;;
  hi <- read index_highlighted ;;
  ticket_id <- lift (py_getitem cache (off + hi)) ;;
  ret tt.

(** [key in key_actions]: both keys map to ['open']. *)
Definition key_actions (k : string) : bool :=
  String.eqb k " " || String.eqb k "enter".

(** [key_movements.get(key, 0)]. *)
Definition key_movements (page_jump : Z) (k : string) : Z :=
  if String.eqb k "up" then -1
  else if String.eqb k "down" then 1
  else if String.eqb k "page up" then - page_jump
  else if String.eqb k "page down" then page_jump
  else 0.

(** [keypress] up to the call into [urwid.Columns.keypress]. *)
Definition keypress (size : Size) (k : string) : M unit :=
  let maxcol := snd size in
  (if key_actions k then _action_open else ret tt) ;;;
  let page_jump := page_speed * (maxcol - nonbody_overhead) in
  scroll size (key_movements page_jump k).

(** ** [TicketList.__init__] *)

(** [initial_widget_list]: the selection column, then one column per key of
    [column_meta]; every body is a [Divider]. *)
Definition initial_widget_list : list TicketColumn :=
  mkColumn "_selected" Divider
    :: map (fun k => mkColumn k Divider) column_meta_keys.

(** The generator [client.tickets()] returns, fresh. *)
Definition tickets (src : nat -> option Ticket) : Generator :=
  mkGenerator src 0 0.

(** The object as [__init__] leaves it: the attributes set, then
    [refresh_widgets] run as if there was room for one row. *)
Definition __init__ (src : nat -> option Ticket) : outcome unit * TicketList :=
  refresh_widgets (None, header_size + 1)
    (mkTicketList (tickets src) [] 0 0 initial_widget_list).

End Model.

(** ** Predicates on states *)

Section Predicates.

Context {Ticket : Type}.
Variable cell_content : string -> Ticket -> string.

(** The generator has nothing left: its next [next] raises [StopIteration]. *)
Definition exhausted (g : Generator (Ticket:=Ticket)) : Prop :=
  source g (position g) = None.

(** The source is exhausted after having delivered exactly [N] records, all
    of them in the cache. *)
Definition exhausted_after (N : nat) (self : TicketList (Ticket:=Ticket)) : Prop :=
  position (ticket_generator self) = N /\
  List.length (_ticket_cache self) = N /\
  source (ticket_generator self) N = None.

(** [N] is the number of records the source can ever deliver: the first
    index at which it is exhausted. *)
Definition total_available (src : nat -> option Ticket) (N : nat) : Prop :=
  src N = None /\ forall i, (i < N)%nat -> src i <> None.

(** What a method may do to the cache and the generator: records are pulled
    from the source onto the end of the cache, and nothing else changes
    but the widgets. *)
Definition grows (self self' : TicketList (Ticket:=Ticket)) : Prop :=
  offset self' = offset self /\
  index_highlighted self' = index_highlighted self /\
  source (ticket_generator self') = source (ticket_generator self) /\
  (next_calls (ticket_generator self) <= next_calls (ticket_generator self'))%nat /\
  exists more,
    _ticket_cache self' = _ticket_cache self ++ more /\
    position (ticket_generator self') =
      (position (ticket_generator self) + List.length more)%nat.

(** The states a [TicketList] can be in: the one [__init__] builds, and
    those its methods lead to (whether they return or raise). *)
Inductive reachable : TicketList (Ticket:=Ticket) -> Prop :=
| reach_init (src : nat -> option Ticket) :
    reachable (snd (__init__ cell_content src))
| reach_get_tickets self offset limit :
    reachable self -> reachable (snd (get_tickets offset limit self))
| reach_refresh_widgets self size :
    reachable self -> reachable (snd (refresh_widgets cell_content size self))
| reach_scroll self size movement :
    reachable self -> reachable (snd (scroll cell_content size movement self))
| reach_render self size :
    reachable self -> reachable (snd (render cell_content size self))
| reach_action_open self :
    reachable self -> reachable (snd (_action_open self))
| reach_keypress self size k :
    reachable self -> reachable (snd (keypress cell_content size k self)).

(** An empty cache means an empty source: [__init__] has already asked for
    the first records. *)
Definition primed (self : TicketList (Ticket:=Ticket)) : Prop :=
  _ticket_cache self = [] -> exhausted (ticket_generator self).

(** The cache holds exactly the records the generator has delivered. *)
Definition coherent (self : TicketList (Ticket:=Ticket)) : Prop :=
  List.length (_ticket_cache self) = position (ticket_generator self).

(** The cache holds, in order, exactly the first records of the source. *)
Definition faithful (self : TicketList (Ticket:=Ticket)) : Prop :=
  coherent self /\
  forall i, (i < List.length (_ticket_cache self))%nat ->
    nth_error (_ticket_cache self) i = source (ticket_generator self) i.

(** With a record in the cache, the offset addresses a cached record. *)
Definition anchored (self : TicketList (Ticket:=Ticket)) : Prop :=
  _ticket_cache self <> [] ->
  0 <= offset self <= len (_ticket_cache self) - 1.

(** A value of [numpy.int64]. *)
Definition fits_int64 (z : Z) : Prop := int64_min <= z <= int64_max.

(** None of the 64-bit operations of [scroll] wraps around or overflows:
    the movement is an int64 value, and so are the sum and the differences
    [scroll] computes from it. *)
Definition no_wrap (size : Size) (movement : Z)
    (self : TicketList (Ticket:=Ticket)) : Prop :=
  let hi := index_highlighted self in
  let target := numpy_clip (hi + movement) 0 (visible_capacity size - 1) in
  fits_int64 movement /\
  fits_int64 (hi + movement) /\
  fits_int64 (target - hi) /\
  fits_int64 (movement - (target - hi)) /\
  fits_int64 (offset self + (movement - (target - hi))).

(** The keys of the columns of the table, in order. *)
Definition column_keys (self : TicketList (Ticket:=Ticket)) : list string :=
  map key (contents self).

End Predicates.

(** ** The specification's [move]

    The specification's [clip(x, lo, hi)] clamps [x] to the interval
    [[lo, hi]]; it has a value only when that interval is not empty (the
    specification rules out clamps of negative length). *)
Definition spec_clip (x lo hi : Z) : option Z :=
  if lo <=? hi then Some (Z.min (Z.max x lo) hi) else None.

(** Section 4.2 of the specification, steps 1 to 4, in its own words: the
    pair [(offset, highlighted_index)] that [move(height, delta)] is to
    leave, given the capacity of the viewport and [cached_count]. *)
Definition spec_move (offset highlighted_index capacity delta cached_count : Z)
    : option (Z * Z) :=
  match spec_clip (highlighted_index + delta) 0 (capacity - 1) with
  | Some target =>
      let consumed := target - highlighted_index in
      let remainder := delta - consumed in
      match spec_clip (offset + remainder) 0 (Z.max (cached_count - 1) 0) with
      | Some new_offset => Some (new_offset, target)
      | None => None
      end
  | None => None
  end.

(** ** Concrete sources and states *)

(** Tickets stand for their numbers; a cell shows the key of its column. *)
Definition key_only (k : string) (t : nat) : string := k.

(** The source that delivers [T1 .. T10] and is then exhausted. *)
Definition ten_tickets : nat -> option nat :=
  nth_error [1; 2; 3; 4; 5; 6; 7; 8; 9; 10]%nat.

(** The source of an account without tickets. *)
Definition no_tickets : nat -> option nat := fun _ => None.

(** The source that delivers [T1; T2] and is then exhausted. *)
Definition two_tickets : nat -> option nat := nth_error [1; 2]%nat.

(** The attributes as [__init__] sets them, before its first refresh. *)
Definition fresh (src : nat -> option nat) : TicketList :=
  mkTicketList (tickets src) [] 0 0 initial_widget_list.

(** The viewer right after [__init__], on each of these sources. *)
Definition viewer_ten : TicketList := snd (__init__ key_only ten_tickets).
Definition viewer_none : TicketList := snd (__init__ key_only no_tickets).
Definition viewer_two : TicketList := snd (__init__ key_only two_tickets).

(** The viewer on [T1 .. T10] after three presses of [down] in a viewport
    of four rows: offset 0, highlight on row 3, nine records cached. *)
Definition down (self : TicketList) : TicketList :=
  snd (keypress key_only (None, 5) "down" self).
Definition viewer_ten_row3 : TicketList := down (down (down viewer_ten)).

(** That viewer scrolled down by four more: offset 4, highlight on row 3. *)
Definition viewer_ten_scrolled : TicketList :=
  snd (scroll key_only (None, 5) 4 viewer_ten_row3).

Unset Implicit Arguments.

(** ** Properties of the primitives *)

Section Primitives.

Lemma numpy_clip_range a lo hi : lo <= hi -> lo <= numpy_clip a lo hi <= hi.
Proof. unfold numpy_clip. lia. Qed.

Lemma numpy_clip_id a lo hi : lo <= a <= hi -> numpy_clip a lo hi = a.
Proof. unfold numpy_clip. lia. Qed.

Lemma numpy_clip_inverted a lo hi : hi < lo -> numpy_clip a lo hi = hi.
Proof. unfold numpy_clip. lia. Qed.

Lemma numpy_clip_idem a lo hi :
  numpy_clip (numpy_clip a lo hi) lo hi = numpy_clip a lo hi.
Proof. unfold numpy_clip. lia. Qed.

Lemma is_int64_fits (z : Z) : is_int64 z = true <-> fits_int64 z.
Proof.
  unfold is_int64, fits_int64. rewrite andb_true_iff, !Z.leb_le. tauto.
Qed.

Lemma is_int64_false (z : Z) : is_int64 z = false <-> ~ fits_int64 z.
Proof.
  rewrite <- is_int64_fits. destruct (is_int64 z); split.
  - discriminate.
  - intros H. exfalso. apply H. reflexivity.
  - intros _ H. discriminate.
  - reflexivity.
Qed.

(** A 64-bit result is an int64 value, and the exact one when that fits. *)
Lemma wrap64_fits (z : Z) : fits_int64 (wrap64 z).
Proof.
  unfold wrap64, fits_int64, int64_min, int64_max.
  pose proof (Z.mod_pos_bound (z - -9223372036854775808) 18446744073709551616
                ltac:(lia)).
  lia.
Qed.

Lemma wrap64_id (z : Z) : fits_int64 z -> wrap64 z = z.
Proof.
  unfold wrap64, fits_int64, int64_min, int64_max. intros H.
  rewrite Z.mod_small by lia. lia.
Qed.

Lemma len_nonneg {A : Type} (l : list A) : 0 <= len l.
Proof. unfold len. lia. Qed.

Lemma len_app {A : Type} (l l' : list A) : len (l ++ l') = len l + len l'.
Proof. unfold len. rewrite length_app. lia. Qed.

Lemma len_nil_iff {A : Type} (l : list A) : len l = 0 <-> l = [].
Proof.
  unfold len. destruct l; simpl; split; intro H; try reflexivity;
    try discriminate; lia.
Qed.

(** The length of a slice whose bounds are not negative. *)
Lemma len_py_slice {A : Type} (l : list A) (start stop : Z) :
  0 <= start -> 0 <= stop ->
  len (py_slice l start stop) = Z.max 0 (Z.min stop (len l) - Z.min start (len l)).
Proof.
  intros Hs He. unfold py_slice, adjust_index.
  destruct (Z.ltb_spec start 0); [lia|].
  destruct (Z.ltb_spec stop 0); [lia|].
  unfold len. rewrite length_firstn, length_skipn.
  pose proof (len_nonneg l) as Hl. unfold len in *. lia.
Qed.

(** A slice is empty unless its start lies before its end once both are
    adjusted to the list. *)
Lemma py_slice_nil {A : Type} (l : list A) (start stop : Z) :
  adjust_index (len l) stop <= adjust_index (len l) start ->
  py_slice l start stop = [].
Proof.
  intros H. unfold py_slice.
  replace (Z.to_nat _) with 0%nat by lia. reflexivity.
Qed.

(** Indexing an empty list raises. *)
Lemma py_getitem_nil {A : Type} (i : Z) : py_getitem (@nil A) i = Raise IndexError.
Proof.
  unfold py_getitem. change (len (@nil A)) with 0.
  destruct (Z.ltb_spec i 0).
  - rewrite Z.add_0_r. destruct (Z.ltb_spec i 0); [reflexivity | lia].
  - destruct (Z.ltb_spec i 0); [lia|].
    destruct (Z.leb_spec 0 i); [reflexivity | lia].
Qed.

End Primitives.

(** ** The prefetching cache *)

Section Cache.

Context {Ticket : Type}.
Implicit Types (self : TicketList (Ticket:=Ticket)) (g : Generator (Ticket:=Ticket)).

Lemma grows_refl self : grows self self.
Proof.
  unfold grows. repeat split; auto.
  exists []. rewrite app_nil_r. simpl. split; [reflexivity | lia].
Qed.

Lemma grows_trans self1 self2 self3 :
  grows self1 self2 -> grows self2 self3 -> grows self1 self3.
Proof.
  intros (Ho1 & Hi1 & Hs1 & Hn1 & m1 & Hc1 & Hp1)
         (Ho2 & Hi2 & Hs2 & Hn2 & m2 & Hc2 & Hp2).
  unfold grows. repeat split; try congruence; try lia.
  exists (m1 ++ m2). rewrite Hc2, Hc1, Hp2, Hp1, length_app, app_assoc.
  split; [reflexivity | lia].
Qed.

Lemma grows_len self self' :
  grows self self' -> len (_ticket_cache self) <= len (_ticket_cache self').
Proof.
  intros (_ & _ & _ & _ & m & Hc & _). rewrite Hc, len_app.
  pose proof (len_nonneg m). lia.
Qed.

(** One round of the loop when the source delivers a record. *)
Lemma prefetch_loop_pull fuel prefetch_index self t :
  ~ prefetch_index < len (_ticket_cache self) ->
  source (ticket_generator self) (position (ticket_generator self)) = Some t ->
  prefetch_loop (S fuel) prefetch_index self =
  prefetch_loop fuel prefetch_index
    (set_ticket_cache (_ticket_cache self ++ [t])
       (set_ticket_generator
          (mkGenerator (source (ticket_generator self))
             (S (position (ticket_generator self)))
             (S (next_calls (ticket_generator self)))) self)).
Proof.
  intros Hlt Hsrc. cbn [prefetch_loop]. unfold bind at 1. unfold read at 1.
  destruct (Z.ltb_spec prefetch_index (len (_ticket_cache self))); [contradiction|].
  unfold bind at 1. unfold next_ticket, next. rewrite Hsrc.
  unfold bind at 1. unfold cache_append, write. reflexivity.
Qed.

(** One round of the loop when the source is exhausted. *)
Lemma prefetch_loop_stop fuel prefetch_index self :
  ~ prefetch_index < len (_ticket_cache self) ->
  exhausted (ticket_generator self) ->
  prefetch_loop (S fuel) prefetch_index self =
  (Raise StopIteration,
   set_ticket_generator
     (mkGenerator (source (ticket_generator self))
        (position (ticket_generator self))
        (S (next_calls (ticket_generator self)))) self).
Proof.
  intros Hlt Hsrc. cbn [prefetch_loop]. unfold bind at 1. unfold read at 1.
  destruct (Z.ltb_spec prefetch_index (len (_ticket_cache self))); [contradiction|].
  unfold bind at 1. unfold next_ticket, next. unfold exhausted in Hsrc.
  rewrite Hsrc. reflexivity.
Qed.

(** The loop leaves at once when the cache is long enough. *)
Lemma prefetch_loop_break fuel prefetch_index self :
  prefetch_index < len (_ticket_cache self) ->
  prefetch_loop fuel prefetch_index self = (Return tt, self).
Proof.
  intros Hlt. destruct fuel; cbn [prefetch_loop]; unfold bind at 1; unfold read at 1;
    destruct (Z.ltb_spec prefetch_index (len (_ticket_cache self)));
    try reflexivity; lia.
Qed.

(** With the fuel [get_tickets] gives it, the loop ends as the Python loop
    does: by [break], with the cache longer than [prefetch_index], or by
    [StopIteration], with the source exhausted.  It only appends to the
    cache. *)
Lemma prefetch_loop_spec fuel : forall prefetch_index self,
  (loop_fuel prefetch_index (_ticket_cache self) <= fuel)%nat ->
  let r := prefetch_loop fuel prefetch_index self in
  grows self (snd r) /\
  contents (snd r) = contents self /\
  ((fst r = Return tt /\ prefetch_index < len (_ticket_cache (snd r))) \/
   (fst r = Raise StopIteration /\ exhausted (ticket_generator (snd r)) /\
    len (_ticket_cache (snd r)) <= prefetch_index)).
Proof.
  induction fuel as [|fuel IH]; intros prefetch_index self Hfuel;
    destruct (Z.lt_decidable prefetch_index (len (_ticket_cache self))) as [Hlt|Hge].
  - rewrite (prefetch_loop_break _ _ _ Hlt). simpl.
    split; [apply grows_refl | split; [reflexivity | left; auto]].
  - unfold loop_fuel in Hfuel. lia.
  - rewrite (prefetch_loop_break _ _ _ Hlt). simpl.
    split; [apply grows_refl | split; [reflexivity | left; auto]].
  - destruct (source (ticket_generator self) (position (ticket_generator self)))
      as [t|] eqn:Hsrc.
    + rewrite (prefetch_loop_pull fuel _ _ _ Hge Hsrc).
      set (self1 := set_ticket_cache _ _).
      assert (Hfuel1 : (loop_fuel prefetch_index (_ticket_cache self1) <= fuel)%nat).
      { unfold self1, loop_fuel in *. simpl. rewrite len_app.
        change (len [t]) with 1. lia. }
      assert (Hg : grows self self1).
      { unfold grows, self1. simpl. repeat split; auto.
        exists [t]. simpl. split; [reflexivity | lia]. }
      destruct (IH prefetch_index self1 Hfuel1) as (Hg1 & Hc1 & Hend).
      split; [eapply grows_trans; eassumption|].
      split; [rewrite Hc1; reflexivity | exact Hend].
    + rewrite (prefetch_loop_stop fuel _ _ Hge Hsrc). simpl.
      split.
      { unfold grows. simpl. repeat split; auto.
        exists []. rewrite app_nil_r. simpl. split; [reflexivity | lia]. }
      split; [reflexivity|]. right. repeat split; auto. lia.
Qed.

(** Fuel beyond what the loop needs changes nothing. *)
Lemma prefetch_loop_fuel fuel : forall fuel' prefetch_index self,
  (loop_fuel prefetch_index (_ticket_cache self) <= fuel)%nat ->
  (loop_fuel prefetch_index (_ticket_cache self) <= fuel')%nat ->
  prefetch_loop fuel prefetch_index self = prefetch_loop fuel' prefetch_index self.
Proof.
  induction fuel as [|fuel IH]; intros fuel' prefetch_index self Hf Hf';
    destruct (Z.lt_decidable prefetch_index (len (_ticket_cache self))) as [Hlt|Hge];
    try (rewrite !(prefetch_loop_break _ _ _ Hlt); reflexivity).
  - unfold loop_fuel in Hf. lia.
  - destruct fuel' as [|fuel']; [unfold loop_fuel in Hf'; lia|].
    destruct (source (ticket_generator self) (position (ticket_generator self)))
      as [t|] eqn:Hsrc.
    + rewrite !(prefetch_loop_pull _ _ _ _ Hge Hsrc).
      apply IH; unfold loop_fuel in *; simpl; rewrite len_app;
        change (len [t]) with 1; lia.
    + rewrite !(prefetch_loop_stop _ _ _ Hge Hsrc). reflexivity.
Qed.

(** [get_tickets] in terms of its loop. *)
Lemma get_tickets_run offset limit self :
  get_tickets offset limit self =
  let r := prefetch_loop (loop_fuel (2 * limit + offset) (_ticket_cache self))
             (2 * limit + offset) self in
  match fst r with
  | Return _ | Raise StopIteration =>
      (Return (py_slice (_ticket_cache (snd r)) offset (offset + limit)), snd r)
  | Raise e => (Raise e, snd r)
  | OutOfFuel => (OutOfFuel, snd r)
  end.
Proof.
  unfold get_tickets. unfold bind at 1. unfold read at 1.
  unfold bind at 1. unfold try_except_StopIteration. cbv zeta.
  destruct (prefetch_loop _ _ self) as [[u | [| |] |] self']; reflexivity.
Qed.

(** [get_tickets] always returns: the slice of the cache as the loop left
    it.  The loop ended by [break] or on an exhausted source. *)
Lemma get_tickets_spec offset limit self :
  let r := get_tickets offset limit self in
  fst r = Return (py_slice (_ticket_cache (snd r)) offset (offset + limit)) /\
  grows self (snd r) /\
  contents (snd r) = contents self /\
  (2 * limit + offset < len (_ticket_cache (snd r)) \/
   exhausted (ticket_generator (snd r))).
Proof.
  cbv zeta. rewrite get_tickets_run. cbv zeta.
  pose proof (@prefetch_loop_spec
                (loop_fuel (2 * limit + offset) (_ticket_cache self))
                (2 * limit + offset) self (Nat.le_refl _)) as H.
  cbv zeta in H.
  destruct (prefetch_loop _ _ self) as [o self'].
  cbn [fst snd] in *.
  destruct H as (Hg & Hc & [[Ho Hlt] | [Ho [Hex _]]]); subst o;
    cbn [fst snd]; (split; [reflexivity | split; [exact Hg | split; [exact Hc | auto]]]).
Qed.

(** On an exhausted source [get_tickets] returns the slice of the cache it
    has; it calls [next] once more exactly when [prefetch_index] is not
    below the length of the cache, and changes nothing else. *)
Lemma get_tickets_exhausted offset limit self :
  exhausted (ticket_generator self) ->
  get_tickets offset limit self =
  (Return (py_slice (_ticket_cache self) offset (offset + limit)),
   if 2 * limit + offset <? len (_ticket_cache self) then self
   else set_ticket_generator
          (mkGenerator (source (ticket_generator self))
             (position (ticket_generator self))
             (S (next_calls (ticket_generator self)))) self).
Proof.
  intros Hex. unfold get_tickets. unfold bind at 1. unfold read at 1.
  unfold bind at 1. unfold try_except_StopIteration.
  destruct (Z.ltb_spec (2 * limit + offset) (len (_ticket_cache self))) as [Hlt|Hge].
  - rewrite (prefetch_loop_break _ _ _ Hlt). reflexivity.
  - assert (Hf : exists f, loop_fuel (2 * limit + offset) (_ticket_cache self) = S f).
    { unfold loop_fuel. exists (Z.to_nat (2 * limit + offset - len (_ticket_cache self))).
      lia. }
    destruct Hf as [f Hf]. rewrite Hf.
    rewrite prefetch_loop_stop by (auto; lia). reflexivity.
Qed.

End Cache.

(** ** The viewport controller *)

Section Controller.

Context {Ticket : Type}.
Variable cell_content : string -> Ticket -> string.
Implicit Types (self : TicketList (Ticket:=Ticket)) (size : Size).

(** [refresh_widgets] in terms of [get_tickets]. *)
Lemma refresh_widgets_run size self :
  refresh_widgets cell_content size self =
  let r := get_tickets (offset self) (snd size - nonbody_overhead) self in
  match fst r with
  | Return visible_tickets =>
      (Return tt,
       set_contents
         (map (refresh_column cell_content visible_tickets
                 (numpy_clip (index_highlighted (snd r)) 0
                    (highlight_bound size visible_tickets)))
            (contents (snd r))) (snd r))
  | Raise e => (Raise e, snd r)
  | OutOfFuel => (OutOfFuel, snd r)
  end.
Proof.
  unfold refresh_widgets. unfold bind at 1. unfold read at 1.
  unfold bind at 1. cbv zeta.
  destruct (get_tickets _ _ self) as [[v | e |] self']; reflexivity.
Qed.

(** [refresh_widgets] always returns; it leaves the offset and the
    highlighted index alone, lets the cache grow as [get_tickets] does, and
    gives every column one cell per visible ticket. *)
Lemma refresh_widgets_spec size self :
  let g := get_tickets (offset self) (snd size - nonbody_overhead) self in
  let r := refresh_widgets cell_content size self in
  let visible_tickets :=
    py_slice (_ticket_cache (snd g)) (offset self)
      (offset self + (snd size - nonbody_overhead)) in
  fst r = Return tt /\
  grows self (snd r) /\
  _ticket_cache (snd r) = _ticket_cache (snd g) /\
  ticket_generator (snd r) = ticket_generator (snd g) /\
  contents (snd r) =
    map (refresh_column cell_content visible_tickets
           (numpy_clip (index_highlighted self) 0
              (highlight_bound size visible_tickets)))
      (contents self).
Proof.
  cbv zeta. rewrite refresh_widgets_run. cbv zeta.
  pose proof (get_tickets_spec (offset self) (snd size - nonbody_overhead) self) as H.
  cbv zeta in H. destruct H as (Hr & Hg & Hc & _).
  rewrite Hr. cbn [fst snd].
  split; [reflexivity|]. split.
  { destruct Hg as (Ho & Hi & Hs & Hn & Hm). unfold grows. simpl. auto. }
  split; [reflexivity|]. split; [reflexivity|].
  simpl. rewrite Hc. destruct Hg as (_ & Hi & _). rewrite Hi. reflexivity.
Qed.

(** [scroll] moves the highlight and the offset, then refreshes; a movement
    that is no int64 value stops it before it has changed anything. *)
Lemma scroll_run size movement self :
  scroll cell_content size movement self =
  if is_int64 movement then
    let can_move_to :=
      numpy_clip (int64_add (index_highlighted self) movement) 0
        (snd size - nonbody_overhead - 1) in
    refresh_widgets cell_content size
      (set_offset
         (numpy_clip
            (int64_add (offset self)
               (int64_sub movement
                  (int64_sub can_move_to (index_highlighted self)))) 0
            (len (_ticket_cache self) - 1))
         (set_index_highlighted can_move_to self))
  else (Raise OverflowError, self).
Proof.
  unfold scroll. cbv zeta. unfold bind at 1. unfold read at 1.
  unfold bind at 1. unfold lift, as_int64.
  destruct (is_int64 movement); reflexivity.
Qed.

(** Whatever the movement, [scroll] only pulls records onto the cache. *)
Lemma scroll_pulls size movement self :
  let r := scroll cell_content size movement self in
  source (ticket_generator (snd r)) = source (ticket_generator self) /\
  exists more,
    _ticket_cache (snd r) = _ticket_cache self ++ more /\
    position (ticket_generator (snd r)) =
      (position (ticket_generator self) + List.length more)%nat.
Proof.
  cbv zeta. rewrite scroll_run. destruct (is_int64 movement).
  - cbv zeta.
    match goal with |- context [refresh_widgets _ _ ?s] =>
      pose proof (refresh_widgets_spec size s) as H end.
    cbv zeta in H. destruct H as (_ & (_ & _ & Hs & _ & Hm) & _).
    simpl in *. auto.
  - simpl. split; [reflexivity|]. exists []. rewrite app_nil_r. simpl.
    split; [reflexivity | lia].
Qed.

(** What [scroll] leaves in the attributes for a movement that is an int64
    value, in terms of the state it was entered in. *)
Lemma scroll_spec size movement self :
  fits_int64 movement ->
  let r := scroll cell_content size movement self in
  let can_move_to :=
    numpy_clip (int64_add (index_highlighted self) movement) 0
      (snd size - nonbody_overhead - 1) in
  fst r = Return tt /\
  index_highlighted (snd r) = can_move_to /\
  offset (snd r) =
    numpy_clip
      (int64_add (offset self)
         (int64_sub movement (int64_sub can_move_to (index_highlighted self))))
      0 (len (_ticket_cache self) - 1).
Proof.
  intros Hfits. cbv zeta. rewrite scroll_run.
  apply is_int64_fits in Hfits. rewrite Hfits. cbv zeta.
  match goal with |- context [refresh_widgets _ _ ?s] =>
    pose proof (refresh_widgets_spec size s) as H end.
  cbv zeta in H. destruct H as (Hr & (Ho & Hi & _) & _).
  rewrite Hr, Ho, Hi. simpl. auto.
Qed.

(** A movement that is no int64 value: [OverflowError], nothing changed. *)
Lemma scroll_overflow size movement self :
  ~ fits_int64 movement ->
  scroll cell_content size movement self = (Raise OverflowError, self).
Proof.
  intros Hno. rewrite scroll_run. apply is_int64_false in Hno. rewrite Hno.
  reflexivity.
Qed.

(** Where no 64-bit operation wraps, [scroll] computes with the exact
    integers. *)
Lemma scroll_no_wrap size movement self :
  no_wrap size movement self ->
  let r := scroll cell_content size movement self in
  let can_move_to :=
    numpy_clip (index_highlighted self + movement) 0
      (snd size - nonbody_overhead - 1) in
  fst r = Return tt /\
  index_highlighted (snd r) = can_move_to /\
  offset (snd r) =
    numpy_clip (offset self + (movement - (can_move_to - index_highlighted self)))
      0 (len (_ticket_cache self) - 1).
Proof.
  intros (Hm & H1 & H2 & H3 & H4). cbv zeta.
  pose proof (scroll_spec size movement self Hm) as H. cbv zeta in H.
  destruct H as (Hr & Hi & Ho). unfold visible_capacity in *.
  unfold int64_add, int64_sub in *.
  rewrite (wrap64_id _ H1) in Hi, Ho.
  rewrite (wrap64_id _ H2), (wrap64_id _ H3), (wrap64_id _ H4) in Ho.
  auto.
Qed.

(** On an exhausted source [scroll] leaves the cache as it is. *)
Lemma scroll_exhausted_cache size movement self :
  exhausted (ticket_generator self) ->
  _ticket_cache (snd (scroll cell_content size movement self)) = _ticket_cache self /\
  exhausted (ticket_generator (snd (scroll cell_content size movement self))).
Proof.
  intros Hex. rewrite scroll_run. destruct (is_int64 movement);
    [|split; [reflexivity | exact Hex]].
  cbv zeta.
  match goal with |- context [refresh_widgets _ _ ?s] =>
    pose proof (refresh_widgets_spec size s) as H; set (s1 := s) in * end.
  cbv zeta in H. destruct H as (_ & _ & Hc & Hg & _).
  rewrite Hc, Hg. rewrite get_tickets_exhausted by exact Hex.
  cbn [snd]. destruct (_ <? _); split; try reflexivity; exact Hex.
Qed.

End Controller.

(** ** Reachable states *)

Section Reachable.

Context {Ticket : Type}.
Variable cell_content : string -> Ticket -> string.
Implicit Types (self : TicketList (Ticket:=Ticket)) (size : Size).

(** Pulling records keeps a viewer primed. *)
Lemma primed_pulls self self' :
  source (ticket_generator self') = source (ticket_generator self) ->
  (exists more,
     _ticket_cache self' = _ticket_cache self ++ more /\
     position (ticket_generator self') =
       (position (ticket_generator self) + List.length more)%nat) ->
  primed self -> primed self'.
Proof.
  intros Hs (more & Hc & Hp) Hprimed Hnil. unfold exhausted.
  rewrite Hc in Hnil. apply app_eq_nil in Hnil. destruct Hnil as [Hnil Hmore].
  subst more. simpl in Hp. rewrite Hs, Hp, Nat.add_0_r. exact (Hprimed Hnil).
Qed.

Lemma primed_grows self self' : grows self self' -> primed self -> primed self'.
Proof. intros (_ & _ & Hs & _ & Hm). apply primed_pulls; assumption. Qed.

(** [_action_open] never changes the object. *)
Lemma _action_open_state self : snd (_action_open self) = self.
Proof.
  unfold _action_open, bind, read, lift, ret.
  destruct (py_getitem _ _); reflexivity.
Qed.

(** [keypress] ends where [_action_open] raised, or where [scroll] ends. *)
Lemma keypress_state size k self :
  snd (keypress cell_content size k self) = self \/
  exists movement,
    snd (keypress cell_content size k self) =
    snd (scroll cell_content size movement self).
Proof.
  unfold keypress. cbv zeta. unfold bind.
  destruct (key_actions k).
  - pose proof (_action_open_state self) as H.
    destruct (_action_open self) as [[u | e |] s]; simpl in H; subst s;
      [right; eexists; reflexivity | left; reflexivity | left; reflexivity].
  - right. eexists. reflexivity.
Qed.

Lemma primed_init (src : nat -> option Ticket) :
  primed (snd (__init__ cell_content src)).
Proof.
  unfold __init__.
  match goal with |- context [refresh_widgets _ ?sz ?s] =>
    pose proof (refresh_widgets_spec cell_content sz s) as H;
    pose proof (get_tickets_spec (offset s) (snd sz - nonbody_overhead) s) as G
  end.
  cbv zeta in H, G. destruct H as (_ & _ & Hc & Hg & _).
  destruct G as (_ & _ & _ & [Hlt | Hex]); intros Hnil; rewrite Hc in Hnil.
  - rewrite Hnil in Hlt. vm_compute in Hlt. discriminate.
  - rewrite Hg. exact Hex.
Qed.

(** A property that [__init__] establishes and that pulling records keeps
    holds in every reachable state. *)
Lemma reachable_invariant (P : TicketList (Ticket:=Ticket) -> Prop) :
  (forall src, P (snd (__init__ cell_content src))) ->
  (forall self self',
     source (ticket_generator self') = source (ticket_generator self) ->
     (exists more,
        _ticket_cache self' = _ticket_cache self ++ more /\
        position (ticket_generator self') =
          (position (ticket_generator self) + List.length more)%nat) ->
     P self -> P self') ->
  forall self, reachable cell_content self -> P self.
Proof.
  intros Hinit Hstep.
  assert (Hscroll : forall size mv self,
            P self -> P (snd (scroll cell_content size mv self))).
  { intros size mv self HP.
    pose proof (scroll_pulls cell_content size mv self) as H. cbv zeta in H.
    destruct H as (Hs & Hm). exact (Hstep _ _ Hs Hm HP). }
  assert (Hgrows : forall self self', grows self self' -> P self -> P self').
  { intros self self' (_ & _ & Hs & _ & Hm). apply Hstep; assumption. }
  intros s Hreach.
  induction Hreach as [src | self o l _ IH | self size _ IH | self size mv _ IH
                       | self size _ IH | self _ IH | self size k _ IH].
  - apply Hinit.
  - pose proof (get_tickets_spec o l self) as H. cbv zeta in H.
    destruct H as (_ & Hg & _). exact (Hgrows _ _ Hg IH).
  - pose proof (refresh_widgets_spec cell_content size self) as H. cbv zeta in H.
    destruct H as (_ & Hg & _). exact (Hgrows _ _ Hg IH).
  - apply Hscroll. exact IH.
  - apply Hscroll. exact IH.
  - rewrite _action_open_state. exact IH.
  - destruct (keypress_state size k self) as [E | [mv E]]; rewrite E; [exact IH|].
    apply Hscroll. exact IH.
Qed.

(** Every reachable viewer is primed. *)
Lemma reachable_primed self : reachable cell_content self -> primed self.
Proof.
  apply (reachable_invariant primed).
  - apply primed_init.
  - apply primed_pulls.
Qed.

(** In every reachable viewer the cache holds what the generator delivered. *)
Lemma reachable_coherent self : reachable cell_content self -> coherent self.
Proof.
  apply (reachable_invariant coherent).
  - intros src. unfold __init__.
    match goal with |- context [refresh_widgets _ ?sz ?s] =>
      pose proof (refresh_widgets_spec cell_content sz s) as H end.
    cbv zeta in H. destruct H as (_ & (_ & _ & _ & _ & more & Hc & Hp) & _).
    unfold coherent. rewrite Hc, Hp, length_app. reflexivity.
  - intros s s' _ (more & Hc & Hp) Hcoh. unfold coherent in *.
    rewrite Hc, Hp, length_app, Hcoh. reflexivity.
Qed.

End Reachable.

(** ** Properties of movement *)

Section Movement.

Context {Ticket : Type}.
Variable cell_content : string -> Ticket -> string.
Implicit Types (self : TicketList (Ticket:=Ticket)) (size : Size).

(** A cache that is not empty has a positive length. *)
Lemma len_pos (cache : list Ticket) : cache <> [] -> 0 < len cache.
Proof.
  intros Hne. pose proof (len_nonneg cache) as Hl.
  pose proof (len_nil_iff cache) as [Hz _].
  destruct (Z.eq_dec (len cache) 0); [tauto | lia].
Qed.

(** For a movement that is an int64 value, [scroll] leaves the highlight
    inside a viewport with room for a row, and the offset inside a cache
    that holds a record. *)
Lemma scroll_bounds size movement self :
  fits_int64 movement ->
  let r := scroll cell_content size movement self in
  (0 < visible_capacity size ->
   0 <= index_highlighted (snd r) <= visible_capacity size - 1) /\
  (_ticket_cache self <> [] ->
   0 <= offset (snd r) <= Z.max (len (_ticket_cache (snd r)) - 1) 0).
Proof.
  intros Hfits. cbv zeta.
  pose proof (scroll_spec cell_content size movement self Hfits) as H.
  pose proof (scroll_pulls cell_content size movement self) as P.
  cbv zeta in H, P. destruct H as (_ & Hi & Ho). destruct P as (_ & more & Hc & _).
  rewrite Hi, Ho, Hc, len_app. unfold visible_capacity. split.
  - intros Hcap. apply numpy_clip_range. lia.
  - intros Hne. pose proof (len_nonneg more) as Hm.
    pose proof (len_pos _ Hne).
    match goal with |- _ <= numpy_clip ?a ?lo ?hi <= _ =>
      pose proof (numpy_clip_range a lo hi) end.
    lia.
Qed.

(** Attributes, height and movement of moderate size keep the 64-bit
    operations of [scroll] from wrapping. *)
Lemma moderate_no_wrap size movement self :
  - 1152921504606846976 <= offset self <= 1152921504606846976 ->
  - 1152921504606846976 <= index_highlighted self <= 1152921504606846976 ->
  - 1152921504606846976 <= visible_capacity size <= 1152921504606846976 ->
  - 1152921504606846976 <= movement <= 1152921504606846976 ->
  no_wrap size movement self.
Proof.
  intros Ho Hi Hc Hm. unfold no_wrap, fits_int64, int64_min, int64_max, numpy_clip.
  cbv zeta. lia.
Qed.



(** C10.  The re-clamp is idempotent: in every state the viewer can reach
    and for every size, [scroll] with movement 0 applied twice leaves the
    same offset and highlighted index as applied once. *)
Theorem scroll_zero_idempotent size self :
  reachable cell_content self ->
  let s1 := snd (scroll cell_content size 0 self) in
  let s2 := snd (scroll cell_content size 0 s1) in
  offset s2 = offset s1 /\ index_highlighted s2 = index_highlighted s1.
Proof.
  intros Hreach. cbv zeta.
  pose proof (reachable_primed cell_content self Hreach) as Hprimed.
  assert (Hzero : fits_int64 0) by (unfold fits_int64, int64_min, int64_max; lia).
  pose proof (scroll_spec cell_content size 0 self Hzero) as H1.
  pose proof (scroll_pulls cell_content size 0 self) as P1.
  cbv zeta in H1, P1. destruct H1 as (_ & Hi1 & Ho1).
  destruct P1 as (_ & more & Hc1 & _).
  pose proof (scroll_spec cell_content size 0
                (snd (scroll cell_content size 0 self)) Hzero) as H2.
  cbv zeta in H2. destruct H2 as (_ & Hi2 & Ho2).
  set (s1 := snd (scroll cell_content size 0 self)) in *.
  set (s2 := snd (scroll cell_content size 0 s1)) in *.
  set (b := snd size - nonbody_overhead - 1) in *.
  (* the highlight: an int64 value when there is room, the bound otherwise *)
  pose proof (wrap64_fits (index_highlighted self + 0)) as Hx.
  assert (Hhi : index_highlighted s2 = index_highlighted s1).
  { rewrite Hi2. unfold int64_add in *.
    destruct (Z_lt_le_dec b 0) as [Hneg | Hpos].
    - rewrite Hi1. rewrite !numpy_clip_inverted by exact Hneg. reflexivity.
    - assert (Hfit : fits_int64 (index_highlighted s1)).
      { rewrite Hi1. unfold fits_int64, int64_min, int64_max, numpy_clip in *. lia. }
      rewrite Z.add_0_r, (wrap64_id _ Hfit).
      rewrite Hi1. apply numpy_clip_idem. }
  split; [|exact Hhi].
  (* the offset: the second pass has nothing left to move *)
  rewrite Ho2. fold b. rewrite <- Hi2, Hhi. unfold int64_sub, int64_add.
  rewrite Z.sub_diag, (wrap64_id 0 Hzero). simpl (0 - 0). rewrite (wrap64_id 0 Hzero).
  rewrite Z.add_0_r.
  unfold int64_add in Ho1.
  pose proof (len_nonneg (_ticket_cache self)) as Hnonneg.
  pose proof (len_nonneg more) as Hmore.
  assert (Hfo : fits_int64 (offset s1)).
  { rewrite Ho1.
    match goal with |- fits_int64 (numpy_clip (wrap64 ?z) _ _) =>
      pose proof (wrap64_fits z) as Hz end.
    unfold fits_int64, int64_min, int64_max, numpy_clip in *. lia. }
  rewrite (wrap64_id _ Hfo).
  destruct (_ticket_cache self) as [|t cache] eqn:Ecache.
  - (* an empty cache: the source is exhausted and the cache stays empty *)
    destruct (scroll_exhausted_cache cell_content size 0 self (Hprimed Ecache))
      as [Hsame _].
    fold s1 in Hsame. rewrite Hsame, Ecache, Ho1. apply numpy_clip_idem.
  - fold s1 in Hc1. rewrite Hc1, len_app, Ho1.
    assert (Hlen : 1 <= len (t :: cache))
      by (unfold len; simpl List.length; lia).
    unfold numpy_clip. lia.
Qed.

End Movement.



(** C2, at the failing input: on an account without tickets the first
    render leaves the offset at -1. *)
Theorem render_without_tickets_negative_offset :
  _ticket_cache viewer_none = [] /\
  offset (snd (render key_only (None, 5) viewer_none)) = -1.
Proof. vm_compute. split; reflexivity. Qed.


(** The re-clamp at work: with the highlight on row 3, a first render in a
    viewport of one row moves the highlight to row 0 and the offset to 3; a
    second render leaves both there. *)
Lemma scroll_zero_idempotent_witness :
  reachable key_only viewer_ten_row3 /\
  (offset viewer_ten_row3, index_highlighted viewer_ten_row3) = (0, 3) /\
  (offset (snd (scroll key_only (None, 2) 0 viewer_ten_row3)),
   index_highlighted (snd (scroll key_only (None, 2) 0 viewer_ten_row3))) = (3, 0) /\
  offset (snd (scroll key_only (None, 2) 0
                 (snd (scroll key_only (None, 2) 0 viewer_ten_row3)))) =
    offset (snd (scroll key_only (None, 2) 0 viewer_ten_row3)) /\
  index_highlighted
    (snd (scroll key_only (None, 2) 0
            (snd (scroll key_only (None, 2) 0 viewer_ten_row3)))) =
    index_highlighted (snd (scroll key_only (None, 2) 0 viewer_ten_row3)).
Proof.
  assert (H : reachable key_only viewer_ten_row3).
  { unfold viewer_ten_row3, down. do 3 apply reach_keypress.
    exact (reach_init key_only ten_tickets). }
  split; [exact H|].
  split; [vm_compute; reflexivity|]. split; [vm_compute; reflexivity|].
  exact (scroll_zero_idempotent key_only (None, 2) viewer_ten_row3 H).
Defined.

(** The scenarios of the specification, on the source [T1 .. T10] with a
    height of 5 (four visible rows). *)

(** [down] three times moves the highlight to the last row; a fourth [down]
    keeps it there and scrolls the offset by one. *)
Example scenario_down_four_times :
  let down self := snd (keypress key_only (None, 5) "down" self) in
  (offset (down (down (down viewer_ten))),
   index_highlighted (down (down (down viewer_ten)))) = (0, 3) /\
  (offset (down (down (down (down viewer_ten)))),
   index_highlighted (down (down (down (down viewer_ten))))) = (1, 3).
Proof. vm_compute. split; reflexivity. Qed.

(** [page down] from the top moves the highlight by three and the offset by
    the remaining one. *)
Example scenario_page_down :
  let self := snd (keypress key_only (None, 5) "page down" viewer_ten) in
  (offset self, index_highlighted self) = (1, 3).
Proof. vm_compute. reflexivity. Qed.

(** A resize to a height of 2 while the highlight is on row 3 brings the
    highlight back to row 0 on the next render. *)
Example scenario_resize :
  let self := snd (scroll key_only (None, 5) 3 viewer_ten) in
  index_highlighted self = 3 /\
  index_highlighted (snd (render key_only (None, 2) self)) = 0.
Proof. vm_compute. split; reflexivity. Qed.

(** ** Properties of the visible rows *)

Section Rows.

Context {Ticket : Type}.
Variable cell_content : string -> Ticket -> string.
Implicit Types (self : TicketList (Ticket:=Ticket)) (size : Size).

(** With a limit that is not positive the slice [cache[offset:offset+limit]]
    is empty unless its end wraps around: [offset] not negative and
    [offset + limit] negative. *)
Lemma py_slice_degenerate (cache : list Ticket) (offset limit : Z) :
  limit <= 0 ->
  offset < 0 \/ 0 <= offset + limit ->
  py_slice cache offset (offset + limit) = [].
Proof.
  intros Hlimit Hsign. apply py_slice_nil. unfold adjust_index.
  pose proof (len_nonneg cache).
  destruct (Z.ltb_spec offset 0); destruct (Z.ltb_spec (offset + limit) 0); lia.
Qed.

Lemma length_enumerate_from {A : Type} (l : list A) : forall i,
  List.length (enumerate_from i l) = List.length l.
Proof. induction l as [|x l IH]; intros i; simpl; [reflexivity | rewrite IH; reflexivity]. Qed.

Lemma nth_error_enumerate_from {A : Type} (l : list A) : forall i j,
  nth_error (enumerate_from i l) j = option_map (pair (i + j)%nat) (nth_error l j).
Proof.
  induction l as [|x l IH]; intros i j; destruct j as [|j]; simpl; try reflexivity.
  - rewrite Nat.add_0_r. reflexivity.
  - rewrite IH. rewrite Nat.add_succ_r. reflexivity.
Qed.

(** The rows [refresh_column] gives a column: one cell per visible ticket. *)
Lemma column_rows_refresh_column (visible_tickets : list Ticket) (hl : Z)
    (column : TicketColumn) :
  column_rows (refresh_column cell_content visible_tickets hl column) =
  map (cell_widget cell_content (key column) hl) (enumerate_from 0 visible_tickets).
Proof. reflexivity. Qed.

(** A cell is marked important exactly on the highlighted row. *)
Lemma cell_attr_refresh_column (visible_tickets : list Ticket) (hl : Z)
    (column : TicketColumn) (j : nat) (cell : TicketCell) :
  nth_error (column_rows (refresh_column cell_content visible_tickets hl column)) j
    = Some cell ->
  (cell_attr cell = Some "important"%string <-> Z.of_nat j = hl).
Proof.
  rewrite column_rows_refresh_column, nth_error_map, nth_error_enumerate_from.
  destruct (nth_error visible_tickets j) as [t|]; simpl; [|discriminate].
  intros H. injection H as <-. simpl.
  destruct (Z.eqb_spec (Z.of_nat j) hl); split; intro; try assumption;
    try reflexivity; try discriminate; contradiction.
Qed.

(** With a negative highlight no cell is marked. *)
Lemma cell_attr_unmarked (column_key : string) (hl : Z) (row : nat * Ticket) :
  hl < 0 -> cell_attr (cell_widget cell_content column_key hl row) = None.
Proof.
  intros Hneg. destruct row as [index ticket]. unfold cell_widget. cbv zeta.
  destruct (Z.eqb_spec (Z.of_nat index) hl); [lia | reflexivity].
Qed.



End Rows.



(** ** Properties of the open action *)

Section OpenAction.

Context {Ticket : Type}.
Implicit Types (self : TicketList (Ticket:=Ticket)).

(** [_action_open] raises whatever indexing the cache at
    [offset + index_highlighted] raises, and touches nothing. *)
Lemma _action_open_raises self e :
  py_getitem (_ticket_cache self) (offset self + index_highlighted self) = Raise e ->
  _action_open self = (Raise e, self).
Proof.
  intros H. unfold _action_open, bind, read, lift. rewrite H. reflexivity.
Qed.

(** On an empty cache [_action_open] raises [IndexError]. *)
Lemma _action_open_empty_cache self :
  _ticket_cache self = [] -> _action_open self = (Raise IndexError, self).
Proof.
  intros H. apply _action_open_raises. rewrite H. apply py_getitem_nil.
Qed.

End OpenAction.

(** C4, at the failing inputs: on an account without tickets the open
    action raises [IndexError], and so does the key press that triggers it;
    so does the open action when the highlight has moved past the last of
    two cached tickets. *)
Theorem _action_open_without_record_raises :
  _action_open viewer_none = (Raise IndexError, viewer_none) /\
  keypress key_only (None, 5) "enter" viewer_none = (Raise IndexError, viewer_none) /\
  (let self := snd (keypress key_only (None, 5) "page down" viewer_two) in
   _ticket_cache self = [1; 2]%nat /\
   offset self + index_highlighted self = 4 /\
   fst (_action_open self) = Raise IndexError).
Proof. vm_compute. repeat split. Qed.

(** ** Properties of the prefetching cache *)

Section Fetch.

Context {Ticket : Type}.
Variable cell_content : string -> Ticket -> string.
Implicit Types (self : TicketList (Ticket:=Ticket)).

(** A fetch in which the loop met [StopIteration] leaves the source
    exhausted. *)
Lemma observed_exhaustion offset limit self :
  fst (prefetch_loop (loop_fuel (2 * limit + offset) (_ticket_cache self))
         (2 * limit + offset) self) = Raise StopIteration ->
  exhausted (ticket_generator (snd (get_tickets offset limit self))).
Proof.
  intros Hstop. rewrite get_tickets_run. cbv zeta. rewrite Hstop. cbn [snd].
  pose proof (prefetch_loop_spec
                (loop_fuel (2 * limit + offset) (_ticket_cache self))
                (2 * limit + offset) self (Nat.le_refl _)) as H.
  cbv zeta in H. destruct H as (_ & _ & [[Hret _] | [_ [Hex _]]]).
  - rewrite Hstop in Hret. discriminate.
  - exact Hex.
Qed.

(** C5 (amended).  Once the source is exhausted, every later
    [get_tickets] returns the cached records clipped to the requested slice
    and leaves the cache and the exhausted source as they are; it makes no
    call of [next] when offset + 2 * limit is below the length of the cache,
    and otherwise exactly one, which raises [StopIteration] again. *)
Theorem get_tickets_after_exhaustion offset limit self :
  exhausted (ticket_generator self) ->
  let r := get_tickets offset limit self in
  fst r = Return (py_slice (_ticket_cache self) offset (offset + limit)) /\
  _ticket_cache (snd r) = _ticket_cache self /\
  exhausted (ticket_generator (snd r)) /\
  next_calls (ticket_generator (snd r)) =
    (next_calls (ticket_generator self) +
     (if (offset + 2 * limit <? len (_ticket_cache self))%Z then 0 else 1))%nat.
Proof.
  intros Hex. cbv zeta. rewrite (get_tickets_exhausted offset limit self Hex).
  cbn [fst snd]. replace (offset + 2 * limit) with (2 * limit + offset) by lia.
  destruct (2 * limit + offset <? len (_ticket_cache self)); simpl;
    repeat split; try assumption; lia.
Qed.

(** C6 (amended).  When the source is exhausted after delivering exactly
    [N] records, for every offset >= 0 and every limit >= 0, [get_tickets]
    raises no error, returns no record when offset >= N, and returns exactly
    min(limit, N - offset) records when offset < N. *)
Theorem get_tickets_short_read (N : nat) offset limit self :
  exhausted_after N self ->
  0 <= offset -> 0 <= limit ->
  exists tickets,
    fst (get_tickets offset limit self) = Return tickets /\
    (Z.of_nat N <= offset -> tickets = []) /\
    (offset < Z.of_nat N -> len tickets = Z.min limit (Z.of_nat N - offset)).
Proof.
  intros (Hpos & Hlen & Hsrc) Hoffset Hlimit.
  assert (Hex : exhausted (ticket_generator self)).
  { unfold exhausted. rewrite Hpos. exact Hsrc. }
  rewrite (get_tickets_exhausted offset limit self Hex). cbn [fst].
  eexists. split; [reflexivity|].
  pose proof (len_py_slice (_ticket_cache self) offset (offset + limit)
                Hoffset ltac:(lia)) as Hslice.
  assert (HN : len (_ticket_cache self) = Z.of_nat N) by (unfold len; lia).
  rewrite HN in Hslice. split.
  - intros Hge. apply len_nil_iff. lia.
  - intros Hlt. lia.
Qed.

(** C7.  In every state the viewer can reach, for every offset and every
    limit >= 0, [get_tickets] returns, and the cache then holds at least
    min(offset + 2 * limit, total_available) records: for a source that can
    deliver [N] records in all, and for one that never ends. *)
Theorem get_tickets_prefetch_bound offset limit self :
  reachable cell_content self ->
  0 <= limit ->
  let r := get_tickets offset limit self in
  (exists tickets, fst r = Return tickets) /\
  (forall N, total_available (source (ticket_generator self)) N ->
     Z.min (offset + 2 * limit) (Z.of_nat N) <= len (_ticket_cache (snd r))) /\
  ((forall i, source (ticket_generator self) i <> None) ->
     offset + 2 * limit <= len (_ticket_cache (snd r))).
Proof.
  intros Hreach Hlimit. cbv zeta.
  pose proof (reachable_coherent cell_content _
                (@reach_get_tickets _ cell_content self offset limit Hreach)) as Hcoh.
  pose proof (get_tickets_spec offset limit self) as H. cbv zeta in H.
  destruct H as (Hr & (_ & _ & Hs & _) & _ & Hend).
  unfold coherent in Hcoh. unfold exhausted in Hend. rewrite Hs in Hend.
  split; [eexists; exact Hr|]. split.
  - intros N [HN Hbelow]. destruct Hend as [Hlt | Hex]; [lia|].
    destruct (Nat.lt_ge_cases
                (position (ticket_generator (snd (get_tickets offset limit self)))) N)
      as [Hp | Hp].
    + exfalso. exact (Hbelow _ Hp Hex).
    + unfold len. lia.
  - intros Hall. destruct Hend as [Hlt | Hex]; [lia|].
    exfalso. exact (Hall _ Hex).
Qed.

End Fetch.

(** C5, as stated, fails.  The fetch [__init__] makes on a source of two
    tickets meets [StopIteration]; the next fetch of the same slice calls
    [next] on the exhausted source once more. *)
Lemma get_tickets_pulls_after_exhaustion :
  fst (prefetch_loop (loop_fuel (2 * 1 + 0) (_ticket_cache (fresh two_tickets)))
         (2 * 1 + 0) (fresh two_tickets)) = Raise StopIteration /\
  exhausted (ticket_generator viewer_two) /\
  next_calls (ticket_generator (snd (get_tickets 0 1 viewer_two))) =
    S (next_calls (ticket_generator viewer_two)).
Proof. vm_compute. repeat split. Qed.

Lemma get_tickets_after_exhaustion_witness :
  exhausted (ticket_generator viewer_two) /\
  fst (get_tickets 1 4 viewer_two) = Return [2%nat] /\
  next_calls (ticket_generator (snd (get_tickets 1 4 viewer_two))) =
    S (next_calls (ticket_generator viewer_two)).
Proof.
  assert (H : exhausted (ticket_generator viewer_two)) by (vm_compute; reflexivity).
  split; [exact H|].
  destruct (get_tickets_after_exhaustion 1 4 viewer_two H) as (Hr & _ & _ & Hn).
  split; [exact Hr|]. rewrite Hn. vm_compute. reflexivity.
Defined.

(** C6, as stated, fails at a negative offset.  On an account without
    tickets the source is exhausted after 0 records and the first render
    leaves the offset at -1; [get_tickets] at that offset returns no record,
    where the claim asks for min(1, 0 - (-1)) = 1. *)
Lemma get_tickets_negative_offset_short :
  exhausted_after 0 viewer_none /\
  -1 < Z.of_nat 0 /\ 0 <= 1 /\
  fst (get_tickets (-1) 1 viewer_none) = Return [] /\
  len (@nil nat) <> Z.min 1 (Z.of_nat 0 - -1).
Proof. vm_compute. repeat split; discriminate. Qed.

Lemma get_tickets_short_read_witness :
  exhausted_after 2 viewer_two /\ 0 <= 1 /\ 0 <= 4 /\
  exists tickets,
    fst (get_tickets 1 4 viewer_two) = Return tickets /\
    (Z.of_nat 2 <= 1 -> tickets = []) /\
    (1 < Z.of_nat 2 -> len tickets = Z.min 4 (Z.of_nat 2 - 1)).
Proof.
  assert (H1 : exhausted_after 2 viewer_two) by (vm_compute; repeat split).
  assert (H2 : 0 <= 1) by lia.
  assert (H3 : 0 <= 4) by lia.
  split; [exact H1|]. split; [exact H2|]. split; [exact H3|].
  exact (get_tickets_short_read 2 1 4 viewer_two H1 H2 H3).
Defined.

Lemma get_tickets_prefetch_bound_witness :
  reachable key_only viewer_ten /\ 0 <= 2 /\
  total_available (source (ticket_generator viewer_ten)) 10 /\
  Z.min (1 + 2 * 2) (Z.of_nat 10) <=
    len (_ticket_cache (snd (get_tickets 1 2 viewer_ten))).
Proof.
  assert (H1 : reachable key_only viewer_ten) by exact (reach_init key_only ten_tickets).
  assert (H2 : 0 <= 2) by lia.
  assert (H3 : total_available (source (ticket_generator viewer_ten)) 10).
  { split; [reflexivity|]. intros i Hi.
    change (source (ticket_generator viewer_ten)) with ten_tickets.
    unfold ten_tickets. apply nth_error_Some. simpl. exact Hi. }
  split; [exact H1|]. split; [exact H2|]. split; [exact H3|].
  exact (proj1 (proj2 (get_tickets_prefetch_bound key_only 1 2 viewer_ten H1 H2))
           10%nat H3).
Defined.

(** * Further properties of the code *)

(** ** The cache and the source *)

Section CacheContents.

Context {Ticket : Type}.
Variable cell_content : string -> Ticket -> string.
Implicit Types (self : TicketList (Ticket:=Ticket)) (size : Size).

(** Out of fuel before the loop could leave: nothing was done. *)
Lemma prefetch_loop_out_of_fuel prefetch_index self :
  ~ prefetch_index < len (_ticket_cache self) ->
  prefetch_loop 0 prefetch_index self = (OutOfFuel, self).
Proof.
  intros Hge. cbn [prefetch_loop]. unfold bind at 1. unfold read at 1.
  destruct (Z.ltb_spec prefetch_index (len (_ticket_cache self))); [contradiction|].
  reflexivity.
Qed.

(** [faithful] only looks at the cache and the generator's source and
    position. *)
Lemma faithful_ext self self' :
  _ticket_cache self' = _ticket_cache self ->
  source (ticket_generator self') = source (ticket_generator self) ->
  position (ticket_generator self') = position (ticket_generator self) ->
  faithful self -> faithful self'.
Proof.
  intros Hc Hs Hp [Hcoh Hnth]. unfold faithful, coherent in *.
  rewrite Hc, Hs, Hp. split; assumption.
Qed.

(** The loop appends what the source delivers, in order. *)
Lemma prefetch_loop_faithful fuel : forall prefetch_index self,
  faithful self -> faithful (snd (prefetch_loop fuel prefetch_index self)).
Proof.
  induction fuel as [|fuel IH]; intros prefetch_index self Hf;
    destruct (Z.lt_decidable prefetch_index (len (_ticket_cache self))) as [Hlt|Hge];
    try (rewrite (prefetch_loop_break _ _ _ Hlt); exact Hf).
  - rewrite (prefetch_loop_out_of_fuel _ _ Hge). exact Hf.
  - destruct (source (ticket_generator self) (position (ticket_generator self)))
      as [t|] eqn:Hsrc.
    + rewrite (prefetch_loop_pull fuel _ _ _ Hge Hsrc). apply IH.
      destruct Hf as [Hcoh Hnth]. unfold faithful, coherent in *. simpl.
      rewrite length_app. simpl. split; [lia|].
      intros i Hi.
      destruct (Nat.lt_ge_cases i (List.length (_ticket_cache self))) as [Hlo | Hhi].
      * rewrite nth_error_app1 by exact Hlo. apply Hnth. exact Hlo.
      * assert (i = List.length (_ticket_cache self)) by lia. subst i.
        rewrite nth_error_app2 by lia. rewrite Nat.sub_diag. simpl.
        rewrite Hcoh. symmetry. exact Hsrc.
    + rewrite (prefetch_loop_stop fuel _ _ Hge Hsrc). simpl.
      revert Hf. apply faithful_ext; reflexivity.
Qed.

Lemma get_tickets_state offset limit self :
  snd (get_tickets offset limit self) =
  snd (prefetch_loop (loop_fuel (2 * limit + offset) (_ticket_cache self))
         (2 * limit + offset) self).
Proof.
  rewrite get_tickets_run. cbv zeta.
  destruct (fst (prefetch_loop _ _ self)) as [u | [| |] |]; reflexivity.
Qed.

Lemma get_tickets_faithful offset limit self :
  faithful self -> faithful (snd (get_tickets offset limit self)).
Proof. rewrite get_tickets_state. apply prefetch_loop_faithful. Qed.

Lemma refresh_widgets_faithful size self :
  faithful self -> faithful (snd (refresh_widgets cell_content size self)).
Proof.
  intros Hf.
  pose proof (refresh_widgets_spec cell_content size self) as H. cbv zeta in H.
  destruct H as (_ & _ & Hc & Hg & _).
  apply (faithful_ext _ _ Hc (f_equal source Hg) (f_equal position Hg)).
  apply get_tickets_faithful. exact Hf.
Qed.

Lemma scroll_faithful size movement self :
  faithful self -> faithful (snd (scroll cell_content size movement self)).
Proof.
  intros Hf. rewrite scroll_run. destruct (is_int64 movement); [|exact Hf].
  cbv zeta. apply refresh_widgets_faithful.
  revert Hf. apply faithful_ext; reflexivity.
Qed.

(** Every reachable viewer is faithful to its source. *)
Lemma reachable_is_faithful self : reachable cell_content self -> faithful self.
Proof.
  intros Hreach.
  induction Hreach as [src | self o l _ IH | self size _ IH | self size mv _ IH
                       | self size _ IH | self _ IH | self size k _ IH].
  - unfold __init__. apply refresh_widgets_faithful.
    split; [reflexivity|]. simpl. intros i Hi. lia.
  - apply get_tickets_faithful. exact IH.
  - apply refresh_widgets_faithful. exact IH.
  - apply scroll_faithful. exact IH.
  - apply scroll_faithful. exact IH.
  - rewrite _action_open_state. exact IH.
  - destruct (keypress_state cell_content size k self) as [E | [mv E]]; rewrite E;
      [exact IH | apply scroll_faithful; exact IH].
Qed.

(** X5.  In every state the viewer can reach, the cache holds exactly the
    records the source has delivered, in the order of the source: record [i]
    of the cache is record [i] of the source, and the generator stands right
    after the last of them. *)
Theorem reachable_faithful self :
  reachable cell_content self ->
  List.length (_ticket_cache self) = position (ticket_generator self) /\
  forall i, (i < List.length (_ticket_cache self))%nat ->
    nth_error (_ticket_cache self) i = source (ticket_generator self) i.
Proof.
  intros Hreach. destruct (reachable_is_faithful self Hreach) as [Hcoh Hnth].
  split; [exact Hcoh | exact Hnth].
Qed.

(** The loop never makes the cache longer than [prefetch_index + 1], and
    calls [next] at most once per unit of fuel. *)
Lemma prefetch_loop_bounded fuel : forall prefetch_index self,
  let r := prefetch_loop fuel prefetch_index self in
  len (_ticket_cache (snd r)) <= Z.max (len (_ticket_cache self)) (prefetch_index + 1) /\
  (next_calls (ticket_generator (snd r)) <= next_calls (ticket_generator self) + fuel)%nat.
Proof.
  induction fuel as [|fuel IH]; intros prefetch_index self; cbv zeta;
    destruct (Z.lt_decidable prefetch_index (len (_ticket_cache self))) as [Hlt|Hge];
    try (rewrite (prefetch_loop_break _ _ _ Hlt); simpl; lia).
  - rewrite (prefetch_loop_out_of_fuel _ _ Hge). simpl. lia.
  - destruct (source (ticket_generator self) (position (ticket_generator self)))
      as [t|] eqn:Hsrc.
    + rewrite (prefetch_loop_pull fuel _ _ _ Hge Hsrc).
      match goal with |- context [prefetch_loop fuel prefetch_index ?s] =>
        pose proof (IH prefetch_index s) as H end.
      cbv zeta in H. simpl in H. rewrite len_app in H. change (len [t]) with 1 in H.
      lia.
    + rewrite (prefetch_loop_stop fuel _ _ Hge Hsrc). simpl. lia.
Qed.

(** X6.  [get_tickets] returns after a bounded look-ahead: it calls [next]
    at most 2 * limit + offset + 1 - len(cache) times, not at all when that
    is not positive, and never makes the cache longer than
    2 * limit + offset + 1 records (unless it already was); the cache ends
    at exactly that length unless the source ran out first. *)
Theorem get_tickets_bounded_lookahead offset limit self :
  let r := get_tickets offset limit self in
  fst r = Return (py_slice (_ticket_cache (snd r)) offset (offset + limit)) /\
  len (_ticket_cache (snd r)) <=
    Z.max (len (_ticket_cache self)) (2 * limit + offset + 1) /\
  Z.of_nat (next_calls (ticket_generator (snd r))) -
    Z.of_nat (next_calls (ticket_generator self)) <=
    Z.max 0 (2 * limit + offset + 1 - len (_ticket_cache self)) /\
  (len (_ticket_cache (snd r)) =
     Z.max (len (_ticket_cache self)) (2 * limit + offset + 1) \/
   exhausted (ticket_generator (snd r))).
Proof.
  cbv zeta.
  pose proof (get_tickets_spec offset limit self) as S. cbv zeta in S.
  destruct S as (Hr & Hg & _ & Hend).
  pose proof (grows_len _ _ Hg) as Hgrow.
  split; [exact Hr|].
  rewrite get_tickets_state in *.
  pose proof (prefetch_loop_bounded
                (loop_fuel (2 * limit + offset) (_ticket_cache self))
                (2 * limit + offset) self) as H.
  cbv zeta in H. unfold loop_fuel in *.
  split; [lia|]. split; [lia|].
  destruct Hend as [Hlt | Hex]; [left; lia | right; exact Hex].
Qed.

(** X2.  A fetch inside the window already prefetched does not touch the
    source: when 2 * limit + offset is below the length of the cache,
    [get_tickets] returns the slice of the cache and leaves the whole object,
    the generator included, as it was. *)
Theorem get_tickets_cached offset limit self :
  2 * limit + offset < len (_ticket_cache self) ->
  get_tickets offset limit self =
  (Return (py_slice (_ticket_cache self) offset (offset + limit)), self).
Proof.
  intros Hlt. rewrite get_tickets_run. cbv zeta.
  rewrite (prefetch_loop_break _ _ _ Hlt). reflexivity.
Qed.

(** X1.  Fetching the same slice again returns the same records and leaves
    the cache as the first fetch left it. *)
Theorem get_tickets_again offset limit self :
  let r1 := get_tickets offset limit self in
  let r2 := get_tickets offset limit (snd r1) in
  fst r2 = fst r1 /\ _ticket_cache (snd r2) = _ticket_cache (snd r1).
Proof.
  cbv zeta.
  pose proof (get_tickets_spec offset limit self) as H. cbv zeta in H.
  destruct H as (Hr & _ & _ & [Hlt | Hex]); rewrite Hr.
  - rewrite get_tickets_run. cbv zeta.
    rewrite (prefetch_loop_break _ _ _ Hlt). split; reflexivity.
  - rewrite (get_tickets_exhausted _ _ _ Hex). cbn [fst snd].
    split; [reflexivity|]. destruct (_ <? _); reflexivity.
Qed.

End CacheContents.

(** ** The records a fetch returns *)

Section FetchedRecords.

Context {Ticket : Type}.
Variable cell_content : string -> Ticket -> string.
Implicit Types (self : TicketList (Ticket:=Ticket)) (size : Size).

(** A slice [l[start:start+n]] with [n] not negative has at most [n]
    elements, wherever it starts. *)
Lemma len_py_slice_le {A : Type} (l : list A) (start n : Z) :
  0 <= n -> len (py_slice l start (start + n)) <= n.
Proof.
  intros Hn. unfold py_slice, adjust_index, len. rewrite length_firstn.
  pose proof (len_nonneg l) as Hl. unfold len in Hl.
  destruct (Z.ltb_spec start 0); destruct (Z.ltb_spec (start + n) 0); lia.
Qed.

(** Element [j] of a slice that starts at a non-negative index. *)
Lemma nth_error_py_slice {A : Type} (l : list A) (start stop : Z) (j : nat) :
  0 <= start ->
  (j < List.length (py_slice l start stop))%nat ->
  nth_error (py_slice l start stop) j = nth_error l (Z.to_nat start + j).
Proof.
  intros Hstart Hj. unfold py_slice, adjust_index in *.
  destruct (Z.ltb_spec start 0); [lia|].
  rewrite length_firstn, length_skipn in Hj.
  rewrite nth_error_firstn, nth_error_skipn.
  destruct (Nat.ltb_spec j (Z.to_nat
              ((if stop <? 0 then Z.max (stop + len l) 0 else Z.min stop (len l))
               - Z.min start (len l)))) as [_ | Hge]; [|lia].
  f_equal. unfold len in *. lia.
Qed.

(** X3.  For a limit that is not negative [get_tickets] returns, and returns
    at most [limit] records, whatever the offset and the state. *)
Theorem get_tickets_at_most_limit offset limit self :
  0 <= limit ->
  exists tickets,
    fst (get_tickets offset limit self) = Return tickets /\
    len tickets <= limit.
Proof.
  intros Hlimit.
  pose proof (get_tickets_spec offset limit self) as H. cbv zeta in H.
  destruct H as (Hr & _). eexists. split; [exact Hr|].
  apply len_py_slice_le. exact Hlimit.
Qed.

(** X4.  In every state the viewer can reach, for an offset and a limit that
    are not negative, [get_tickets] returns the records of the source from
    position [offset] on, in order: its record [j] is record [offset + j] of
    the source.  When the source can deliver [offset + limit] records it
    returns exactly [limit] of them. *)
Theorem get_tickets_delivers_source offset limit self :
  reachable cell_content self ->
  0 <= offset -> 0 <= limit ->
  exists tickets,
    fst (get_tickets offset limit self) = Return tickets /\
    (forall j, (j < List.length tickets)%nat ->
       nth_error tickets j = source (ticket_generator self) (Z.to_nat offset + j)) /\
    ((forall i, Z.of_nat i < offset + limit ->
        source (ticket_generator self) i <> None) ->
     len tickets = limit).
Proof.
  intros Hreach Hoffset Hlimit.
  pose proof (reachable_is_faithful cell_content _
                (@reach_get_tickets _ cell_content self offset limit Hreach))
    as [Hcoh Hnth].
  pose proof (get_tickets_spec offset limit self) as H. cbv zeta in H.
  destruct H as (Hr & (_ & _ & Hs & _) & _ & Hend).
  rewrite Hs in Hnth. unfold exhausted in Hend. rewrite Hs in Hend.
  eexists. split; [exact Hr|]. split.
  - intros j Hj. rewrite nth_error_py_slice by assumption.
    apply Hnth.
    apply nth_error_Some. rewrite <- nth_error_py_slice with (stop := offset + limit)
      by assumption.
    apply nth_error_Some. exact Hj.
  - intros Havail.
    assert (Hlen : offset + limit <=
                   len (_ticket_cache (snd (get_tickets offset limit self)))).
    { destruct Hend as [Hlt | Hex]; [lia|].
      destruct (Z.le_gt_cases (offset + limit)
                  (len (_ticket_cache (snd (get_tickets offset limit self)))))
        as [Hle | Hgt]; [exact Hle|].
      exfalso. apply (Havail _) in Hex; [exact Hex|].
      rewrite <- Hcoh. unfold len in Hgt. exact Hgt. }
    rewrite len_py_slice by lia. lia.
Qed.

End FetchedRecords.

(** ** The open action and the keys that trigger it *)

Section OpenKeys.

Context {Ticket : Type}.
Variable cell_content : string -> Ticket -> string.
Implicit Types (self : TicketList (Ticket:=Ticket)) (size : Size).

(** Indexing succeeds exactly on [-len(l) <= i < len(l)]. *)
Lemma py_getitem_in_range {A : Type} (l : list A) (i : Z) :
  - len l <= i < len l -> exists x, py_getitem l i = Return x.
Proof.
  intros Hi. unfold py_getitem.
  set (j := if i <? 0 then i + len l else i).
  assert (Hj : 0 <= j < len l).
  { unfold j. destruct (Z.ltb_spec i 0); lia. }
  destruct (Z.ltb_spec j 0); [lia|]. destruct (Z.leb_spec (len l) j); [lia|].
  simpl. destruct (nth_error l (Z.to_nat j)) as [x|] eqn:E; [eexists; reflexivity|].
  apply nth_error_None in E. unfold len in Hj. lia.
Qed.

Lemma py_getitem_out_of_range {A : Type} (l : list A) (i : Z) :
  i < - len l \/ len l <= i -> py_getitem l i = Raise IndexError.
Proof.
  intros Hi. unfold py_getitem. pose proof (len_nonneg l) as Hl.
  set (j := if i <? 0 then i + len l else i).
  assert (Hj : j < 0 \/ len l <= j).
  { unfold j. destruct (Z.ltb_spec i 0); lia. }
  destruct (Z.ltb_spec j 0); [reflexivity|].
  destruct (Z.leb_spec (len l) j); [reflexivity | lia].
Qed.

(** [_action_open] where the cache has a record at the position. *)
Lemma _action_open_returns self :
  - len (_ticket_cache self) <= offset self + index_highlighted self
    < len (_ticket_cache self) ->
  _action_open self = (Return tt, self).
Proof.
  intros Hi. destruct (py_getitem_in_range _ _ Hi) as [x Hx].
  unfold _action_open, bind, read, lift. rewrite Hx. reflexivity.
Qed.

(** X7.  [_action_open] returns, leaving the object as it was, exactly when
    the cache has a record at [offset + index_highlighted], counting a
    negative position from the end as Python does; at any other position it
    raises [IndexError], also leaving the object as it was. *)
Theorem _action_open_outcome self :
  let i := offset self + index_highlighted self in
  let n := len (_ticket_cache self) in
  (- n <= i < n -> _action_open self = (Return tt, self)) /\
  (i < - n \/ n <= i -> _action_open self = (Raise IndexError, self)).
Proof.
  cbv zeta. split.
  - apply _action_open_returns.
  - intros Hi. apply _action_open_raises. apply py_getitem_out_of_range. exact Hi.
Qed.

(** X8.  Space and enter do what a render does when the cache has a record
    at the highlighted position: the open action changes nothing and the
    scroll that follows has movement 0.  When it has none the key press
    raises [IndexError] before any re-clamp, and the object is unchanged. *)
Theorem keypress_open_key size k self :
  k = " "%string \/ k = "enter"%string ->
  let i := offset self + index_highlighted self in
  let n := len (_ticket_cache self) in
  (- n <= i < n ->
   keypress cell_content size k self = render cell_content size self) /\
  (i < - n \/ n <= i ->
   keypress cell_content size k self = (Raise IndexError, self)).
Proof.
  intros Hk. cbv zeta.
  assert (Hkey : key_actions k = true /\
                 forall page_jump, key_movements page_jump k = 0).
  { destruct Hk; subst k; split; reflexivity. }
  destruct Hkey as [Hact Hmove].
  unfold keypress, render. cbv zeta. rewrite Hact, Hmove. unfold bind.
  split; intros Hi.
  - rewrite (_action_open_returns _ Hi). reflexivity.
  - rewrite (_action_open_raises self IndexError
               (py_getitem_out_of_range _ _ Hi)).
    reflexivity.
Qed.

End OpenKeys.

(** ** The rows of the table *)

Section TableRows.

Context {Ticket : Type}.
Variable cell_content : string -> Ticket -> string.
Implicit Types (self : TicketList (Ticket:=Ticket)) (size : Size).


(** What [scroll] puts on screen when the cache holds a record and the
    viewport has room for a row: the tickets it shows, between one and
    [visible_capacity] of them, and the highlight it marks. *)
Lemma scroll_contents size movement self :
  fits_int64 movement ->
  _ticket_cache self <> [] ->
  1 <= visible_capacity size ->
  let r := scroll cell_content size movement self in
  exists visible_tickets,
    1 <= len visible_tickets <= visible_capacity size /\
    contents (snd r) =
      map (refresh_column cell_content visible_tickets
             (Z.min (index_highlighted (snd r)) (len visible_tickets - 1)))
        (contents self).
Proof.
  intros Hfits Hne Hcap. cbv zeta.
  rewrite scroll_run. apply is_int64_fits in Hfits. rewrite Hfits. cbv zeta.
  match goal with |- context [refresh_widgets _ _ ?s] =>
    pose proof (refresh_widgets_spec cell_content size s) as H;
    pose proof (get_tickets_spec (offset s) (snd size - nonbody_overhead) s) as G;
    set (s1 := s) in *
  end.
  cbv zeta in H, G. destruct H as (_ & (_ & Shi & _) & _ & _ & Hcontents).
  destruct G as (_ & (_ & _ & _ & _ & more & Hc & _) & _).
  set (cache1 := _ticket_cache (snd (get_tickets (offset s1)
                   (snd size - nonbody_overhead) s1))) in *.
  set (visible := py_slice cache1 (offset s1)
                    (offset s1 + (snd size - nonbody_overhead))) in *.
  assert (Hlen0 : 0 < len (_ticket_cache self)).
  { pose proof (len_nonneg (_ticket_cache self)) as Hl.
    pose proof (len_nil_iff (_ticket_cache self)) as [Hz _].
    destruct (Z.eq_dec (len (_ticket_cache self)) 0); [tauto | lia]. }
  assert (Hoff : 0 <= offset s1 <= len (_ticket_cache self) - 1).
  { unfold s1. simpl. apply numpy_clip_range. lia. }
  assert (Hcache1 : len (_ticket_cache self) <= len cache1).
  { rewrite Hc. change (_ticket_cache s1) with (_ticket_cache self).
    rewrite len_app. pose proof (len_nonneg more). lia. }
  unfold visible_capacity in *.
  assert (Hvis : 1 <= len visible <= snd size - nonbody_overhead).
  { unfold visible. rewrite len_py_slice by lia. lia. }
  exists visible. split; [exact Hvis|].
  rewrite Hcontents. change (contents s1) with (contents self).
  f_equal. f_equal.
  assert (Hhi : 0 <= index_highlighted s1 <= snd size - nonbody_overhead - 1).
  { unfold s1. simpl. apply numpy_clip_range. lia. }
  rewrite Shi.
  unfold highlight_bound, numpy_clip. lia.
Qed.



End TableRows.

(** ** Where a movement ends *)

Section ScrollPosition.

Context {Ticket : Type}.
Variable cell_content : string -> Ticket -> string.
Implicit Types (self : TicketList (Ticket:=Ticket)) (size : Size).

(** X12.  Where none of its 64-bit operations wraps, [scroll] moves the
    highlighted position, [offset + index_highlighted], by exactly
    [movement] whenever the part of the movement the highlight cannot take
    leaves the offset inside the cache; a resize (movement 0) under that
    condition keeps the position. *)
Theorem scroll_moves_position size movement self :
  no_wrap size movement self ->
  0 <= offset self +
       (movement -
        (numpy_clip (index_highlighted self + movement) 0
           (visible_capacity size - 1) - index_highlighted self))
    <= len (_ticket_cache self) - 1 ->
  let r := scroll cell_content size movement self in
  offset (snd r) + index_highlighted (snd r) =
    offset self + index_highlighted self + movement.
Proof.
  intros Hnw Hin. cbv zeta.
  pose proof (scroll_no_wrap cell_content size movement self Hnw) as H.
  cbv zeta in H. destruct H as (_ & Hi & Ho). unfold visible_capacity in Hin.
  rewrite Ho, Hi. rewrite (numpy_clip_id _ _ _ Hin). lia.
Qed.

(** X13.  Where none of its 64-bit operations wraps, a movement up by at
    least the highlighted position brings the viewer to the top, offset 0
    and highlight 0, when the cache holds a record and the viewport has room
    for a row. *)
Theorem scroll_to_top size movement self :
  no_wrap size movement self ->
  _ticket_cache self <> [] ->
  1 <= visible_capacity size ->
  0 <= offset self ->
  movement <= - (offset self + index_highlighted self) ->
  let r := scroll cell_content size movement self in
  offset (snd r) = 0 /\ index_highlighted (snd r) = 0.
Proof.
  intros Hnw Hne Hcap Hoff Hmove. cbv zeta.
  pose proof (scroll_no_wrap cell_content size movement self Hnw) as H.
  cbv zeta in H. destruct H as (_ & Hi & Ho).
  assert (0 < len (_ticket_cache self)).
  { pose proof (len_nonneg (_ticket_cache self)) as Hl.
    pose proof (len_nil_iff (_ticket_cache self)) as [Hz _].
    destruct (Z.eq_dec (len (_ticket_cache self)) 0); [tauto | lia]. }
  rewrite Ho, Hi. unfold visible_capacity, numpy_clip in *. lia.
Qed.

(** X14.  Where none of its 64-bit operations wraps, a movement down cannot
    pass the records cached on entry: when it is at least the distance of
    the highlight to the last row plus the distance of the offset to the
    last cached record, the highlight ends on the last row and the offset
    on the last record that was cached when [scroll] was entered. *)
Theorem scroll_to_cache_end size movement self :
  no_wrap size movement self ->
  1 <= visible_capacity size ->
  offset self <= len (_ticket_cache self) - 1 ->
  (visible_capacity size - 1 - index_highlighted self) +
    (len (_ticket_cache self) - 1 - offset self) <= movement ->
  let r := scroll cell_content size movement self in
  offset (snd r) = len (_ticket_cache self) - 1 /\
  index_highlighted (snd r) = visible_capacity size - 1.
Proof.
  intros Hnw Hcap Hoff Hmove. cbv zeta.
  pose proof (scroll_no_wrap cell_content size movement self Hnw) as H.
  cbv zeta in H. destruct H as (_ & Hi & Ho).
  rewrite Ho, Hi. unfold visible_capacity, numpy_clip in *. lia.
Qed.

(** On a primed viewer with an empty cache nothing is ever fetched. *)
Lemma get_tickets_keeps_empty offset limit self :
  primed self -> _ticket_cache self = [] ->
  _ticket_cache (snd (get_tickets offset limit self)) = [].
Proof.
  intros Hprimed Hnil. rewrite (get_tickets_exhausted _ _ _ (Hprimed Hnil)).
  cbn [snd]. destruct (_ <? _); exact Hnil.
Qed.

(** An offset inside the cache stays inside a cache that grows. *)
Lemma anchored_grows self self' :
  grows self self' ->
  (_ticket_cache self = [] -> _ticket_cache self' = []) ->
  anchored self -> anchored self'.
Proof.
  intros (Ho & _ & _ & _ & more & Hc & _) Hempty Hanch Hne.
  unfold anchored in Hanch.
  destruct (_ticket_cache self) as [|t cache] eqn:E.
  - exfalso. apply Hne. apply Hempty. reflexivity.
  - rewrite Ho, Hc, len_app. pose proof (len_nonneg more).
    assert (Hold : 0 <= offset self <= len (t :: cache) - 1)
      by (apply Hanch; discriminate).
    lia.
Qed.

Lemma scroll_anchored size movement self :
  primed self -> anchored self ->
  anchored (snd (scroll cell_content size movement self)).
Proof.
  intros Hprimed Hanch.
  destruct (Z_le_dec int64_min movement) as [Hlo|Hlo];
    [destruct (Z_le_dec movement int64_max) as [Hhi|Hhi]|];
    try (rewrite scroll_overflow by (unfold fits_int64; lia); exact Hanch).
  intros Hne.
  pose proof (scroll_spec cell_content size movement self (conj Hlo Hhi)) as H.
  pose proof (scroll_pulls cell_content size movement self) as P.
  cbv zeta in H, P. destruct H as (_ & _ & Ho). destruct P as (_ & more & Hc & _).
  destruct (_ticket_cache self) as [|t cache] eqn:E.
  - exfalso. apply Hne.
    destruct (scroll_exhausted_cache cell_content size movement self
                (Hprimed E)) as [Hsame _].
    rewrite Hsame. exact E.
  - rewrite Ho, Hc, len_app. pose proof (len_nonneg more) as Hm.
    pose proof (len_nonneg cache) as Hl.
    assert (Hlen : len (t :: cache) = len cache + 1)
      by (unfold len; simpl List.length; lia).
    match goal with |- _ <= numpy_clip ?a ?lo ?hi <= _ =>
      pose proof (numpy_clip_range a lo hi) end.
    lia.
Qed.

(** X15.  In every state the viewer can reach, once the cache holds a record
    the offset addresses a cached record: 0 <= offset <= len(cache) - 1. *)
Theorem reachable_anchored self :
  reachable cell_content self ->
  _ticket_cache self <> [] ->
  0 <= offset self <= len (_ticket_cache self) - 1.
Proof.
  intros Hreach. change (anchored self).
  induction Hreach as [src | self o l Hr IH | self size Hr IH | self size mv Hr IH
                       | self size Hr IH | self Hr IH | self size k Hr IH].
  - intros Hne. unfold __init__ in *.
    match type of Hne with context [refresh_widgets _ ?sz ?s] =>
      pose proof (refresh_widgets_spec cell_content sz s) as H end.
    cbv zeta in H. destruct H as (_ & (Ho & _) & _).
    rewrite Ho. simpl offset.
    destruct (_ticket_cache _) as [|t cache]; [contradiction|].
    unfold len. simpl List.length. lia.
  - pose proof (get_tickets_spec o l self) as H. cbv zeta in H.
    destruct H as (_ & Hg & _).
    apply (anchored_grows _ _ Hg); [|exact IH].
    apply get_tickets_keeps_empty. exact (reachable_primed cell_content _ Hr).
  - pose proof (refresh_widgets_spec cell_content size self) as H. cbv zeta in H.
    destruct H as (_ & Hg & Hc & _).
    apply (anchored_grows _ _ Hg); [|exact IH].
    rewrite Hc. apply get_tickets_keeps_empty.
    exact (reachable_primed cell_content _ Hr).
  - apply scroll_anchored; [exact (reachable_primed cell_content _ Hr) | exact IH].
  - apply scroll_anchored; [exact (reachable_primed cell_content _ Hr) | exact IH].
  - rewrite _action_open_state. exact IH.
  - destruct (keypress_state cell_content size k self) as [E | [mv E]]; rewrite E;
      [exact IH|].
    apply scroll_anchored; [exact (reachable_primed cell_content _ Hr) | exact IH].
Qed.

(** [refresh_widgets] keeps the columns and gives each a list of cells. *)
Lemma refresh_widgets_columns size self :
  column_keys (snd (refresh_widgets cell_content size self)) = column_keys self /\
  Forall (fun column => exists cells, body column = ListBox cells)
    (contents (snd (refresh_widgets cell_content size self))).
Proof.
  pose proof (refresh_widgets_spec cell_content size self) as H. cbv zeta in H.
  destruct H as (_ & _ & _ & _ & Hcontents).
  unfold column_keys. rewrite Hcontents. split.
  - rewrite map_map. reflexivity.
  - apply Forall_forall. intros column Hin. apply in_map_iff in Hin.
    destruct Hin as (c & Hc & _). subst column. eexists. reflexivity.
Qed.

(** X16.  In every state the viewer can reach, the table has the same five
    columns in the same order, the selection column and then the keys of
    [column_meta], and the body of every column is a list of cells (the
    initial [Divider] is gone after [__init__]). *)
Theorem reachable_columns self :
  reachable cell_content self ->
  column_keys self = ["_selected"; "id"; "subject"; "type"; "priority"]%string /\
  Forall (fun column => exists cells, body column = ListBox cells) (contents self).
Proof.
  intros Hreach.
  set (shown := fun s : TicketList (Ticket:=Ticket) =>
         column_keys s = ["_selected"; "id"; "subject"; "type"; "priority"]%string /\
         Forall (fun column => exists cells, body column = ListBox cells)
           (contents s)).
  change (shown self).
  assert (Hrefresh : forall size s,
            shown s -> shown (snd (refresh_widgets cell_content size s))).
  { intros size s [Hk _]. destruct (refresh_widgets_columns size s) as [Hk' Hb].
    split; [rewrite Hk'; exact Hk | exact Hb]. }
  assert (Hscroll : forall size mv s,
            shown s -> shown (snd (scroll cell_content size mv s))).
  { intros size mv s Hs. rewrite scroll_run.
    destruct (is_int64 mv); [|exact Hs]. cbv zeta. apply Hrefresh. exact Hs. }
  induction Hreach as [src | self o l _ IH | self size _ IH | self size mv _ IH
                       | self size _ IH | self _ IH | self size k _ IH].
  - unfold __init__. destruct (refresh_widgets_columns
        (None, header_size + 1)
        (mkTicketList (tickets src) [] 0 0 initial_widget_list)) as [Hk Hb].
    split; [rewrite Hk; reflexivity | exact Hb].
  - pose proof (get_tickets_spec o l self) as H. cbv zeta in H.
    destruct H as (_ & _ & Hc & _). unfold shown, column_keys in *.
    rewrite Hc. exact IH.
  - apply Hrefresh. exact IH.
  - apply Hscroll. exact IH.
  - apply Hscroll. exact IH.
  - rewrite _action_open_state. exact IH.
  - destruct (keypress_state cell_content size k self) as [E | [mv E]]; rewrite E;
      [exact IH|].
    apply Hscroll. exact IH.
Qed.

End ScrollPosition.

(** ** The object [__init__] leaves *)

Section Initial.

Context {Ticket : Type}.
Variable cell_content : string -> Ticket -> string.

(** X17.  [__init__] returns on every source, with the offset and the
    highlight at 0.  It prefetches at most three records, and fewer than
    three only when that is all the source can deliver; every column then
    shows one row, or none when the source has no record. *)
Theorem init_prefetches (src : nat -> option Ticket) :
  let r := __init__ cell_content src in
  fst r = Return tt /\
  offset (snd r) = 0 /\ index_highlighted (snd r) = 0 /\
  len (_ticket_cache (snd r)) <= 3 /\
  (len (_ticket_cache (snd r)) < 3 ->
   total_available src (List.length (_ticket_cache (snd r)))) /\
  Forall (fun column =>
            len (column_rows column) = Z.min 1 (len (_ticket_cache (snd r))))
    (contents (snd r)).
Proof.
  cbv zeta.
  pose proof (reachable_is_faithful cell_content _ (reach_init cell_content src))
    as [Hcoh Hnth].
  unfold __init__ in *.
  match goal with |- context [refresh_widgets _ ?sz ?s] =>
    pose proof (refresh_widgets_spec cell_content sz s) as H;
    pose proof (get_tickets_spec (offset s) (snd sz - nonbody_overhead) s) as G;
    pose proof (prefetch_loop_bounded
                  (loop_fuel (2 * (snd sz - nonbody_overhead) + offset s)
                     (_ticket_cache s))
                  (2 * (snd sz - nonbody_overhead) + offset s) s) as B;
    set (s0 := s) in *
  end.
  cbv zeta in H, G, B. rewrite <- get_tickets_state in B.
  destruct H as (Hr & (Ho & Hi & Hs & _) & Hc & Hg & Hcontents).
  destruct G as (_ & _ & _ & Hend). destruct B as [Blen _].
  rewrite <- Hc, <- Hg in *.
  set (r := refresh_widgets cell_content (None, header_size + 1) s0) in *.
  change (snd (None (A:=Z), header_size + 1) - nonbody_overhead) with 1 in *.
  change (offset s0) with 0 in *. change (len (_ticket_cache s0)) with 0 in *.
  split; [exact Hr|]. split; [exact Ho|]. split; [exact Hi|].
  split; [lia|]. split.
  - intros Hlt. destruct Hend as [Habs | Hex]; [lia|].
    unfold exhausted in Hex. rewrite <- Hcoh, Hs in Hex. split; [exact Hex|].
    intros i Hi'. pose proof (Hnth i Hi') as E. rewrite Hs in E.
    change (source (ticket_generator s0) i) with (src i) in E.
    rewrite <- E. apply nth_error_Some. exact Hi'.
  - rewrite Hcontents. apply Forall_forall. intros column Hin.
    apply in_map_iff in Hin. destruct Hin as (c & Hcol & _). subst column.
    rewrite column_rows_refresh_column. unfold len at 1.
    rewrite length_map, length_enumerate_from.
    fold (len (py_slice (_ticket_cache (snd r)) 0 (0 + 1))).
    rewrite len_py_slice by lia. pose proof (len_nonneg (_ticket_cache (snd r))).
    lia.
Qed.

End Initial.

(** ** The further properties at concrete inputs *)

Lemma get_tickets_cached_witness :
  2 * 1 + 0 < len (_ticket_cache viewer_ten) /\
  get_tickets 0 1 viewer_ten =
    (Return (py_slice (_ticket_cache viewer_ten) 0 (0 + 1)), viewer_ten).
Proof.
  assert (H : 2 * 1 + 0 < len (_ticket_cache viewer_ten)) by (vm_compute; reflexivity).
  split; [exact H|]. exact (get_tickets_cached 0 1 viewer_ten H).
Defined.

Lemma get_tickets_at_most_limit_witness :
  0 <= 4 /\
  exists tickets,
    fst (get_tickets (-1) 4 viewer_ten) = Return tickets /\ len tickets <= 4.
Proof.
  assert (H : 0 <= 4) by (vm_compute; discriminate).
  split; [exact H|]. exact (get_tickets_at_most_limit (-1) 4 viewer_ten H).
Defined.

Lemma get_tickets_delivers_source_witness :
  reachable key_only viewer_ten /\ 0 <= 1 /\ 0 <= 2 /\
  exists tickets,
    fst (get_tickets 1 2 viewer_ten) = Return tickets /\
    (forall j, (j < List.length tickets)%nat ->
       nth_error tickets j =
       source (ticket_generator viewer_ten) (Z.to_nat 1 + j)) /\
    ((forall i, Z.of_nat i < 1 + 2 ->
        source (ticket_generator viewer_ten) i <> None) ->
     len tickets = 2).
Proof.
  assert (H1 : reachable key_only viewer_ten) by exact (reach_init key_only ten_tickets).
  assert (H2 : 0 <= 1) by (vm_compute; discriminate).
  assert (H3 : 0 <= 2) by (vm_compute; discriminate).
  split; [exact H1|]. split; [exact H2|]. split; [exact H3|].
  exact (get_tickets_delivers_source key_only 1 2 viewer_ten H1 H2 H3).
Defined.

Lemma reachable_faithful_witness :
  reachable key_only viewer_ten /\
  List.length (_ticket_cache viewer_ten) = position (ticket_generator viewer_ten) /\
  forall i, (i < List.length (_ticket_cache viewer_ten))%nat ->
    nth_error (_ticket_cache viewer_ten) i = source (ticket_generator viewer_ten) i.
Proof.
  assert (H : reachable key_only viewer_ten) by exact (reach_init key_only ten_tickets).
  split; [exact H|]. exact (reachable_faithful key_only viewer_ten H).
Defined.

Lemma keypress_open_key_witness :
  ("enter" = " " \/ "enter" = "enter")%string /\
  (- len (_ticket_cache viewer_ten)
     <= offset viewer_ten + index_highlighted viewer_ten
     < len (_ticket_cache viewer_ten) ->
   keypress key_only (None, 5) "enter" viewer_ten = render key_only (None, 5) viewer_ten) /\
  (offset viewer_none + index_highlighted viewer_none < - len (_ticket_cache viewer_none)
   \/ len (_ticket_cache viewer_none) <= offset viewer_none + index_highlighted viewer_none ->
   keypress key_only (None, 5) "enter" viewer_none = (Raise IndexError, viewer_none)).
Proof.
  assert (H : ("enter" = " " \/ "enter" = "enter")%string) by (right; reflexivity).
  split; [exact H|]. split.
  - exact (proj1 (keypress_open_key key_only (None, 5) "enter" viewer_ten H)).
  - exact (proj2 (keypress_open_key key_only (None, 5) "enter" viewer_none H)).
Defined.




Lemma scroll_moves_position_witness :
  no_wrap (None, 5) 2 viewer_ten_row3 /\
  0 <= offset viewer_ten_row3 +
       (2 - (numpy_clip (index_highlighted viewer_ten_row3 + 2) 0
               (visible_capacity (None, 5) - 1) - index_highlighted viewer_ten_row3))
    <= len (_ticket_cache viewer_ten_row3) - 1 /\
  offset (snd (scroll key_only (None, 5) 2 viewer_ten_row3)) +
    index_highlighted (snd (scroll key_only (None, 5) 2 viewer_ten_row3)) =
  offset viewer_ten_row3 + index_highlighted viewer_ten_row3 + 2.
Proof.
  assert (H0 : no_wrap (None, 5) 2 viewer_ten_row3)
    by (vm_compute; repeat split; discriminate).
  assert (H : 0 <= offset viewer_ten_row3 +
       (2 - (numpy_clip (index_highlighted viewer_ten_row3 + 2) 0
               (visible_capacity (None, 5) - 1) - index_highlighted viewer_ten_row3))
    <= len (_ticket_cache viewer_ten_row3) - 1) by (vm_compute; split; discriminate).
  split; [exact H0|]. split; [exact H|].
  exact (scroll_moves_position key_only (None, 5) 2 viewer_ten_row3 H0 H).
Defined.

(** From offset 4 and row 3, a movement of -10 ends at the top. *)
Lemma scroll_to_top_witness :
  (offset viewer_ten_scrolled, index_highlighted viewer_ten_scrolled) = (4, 3) /\
  no_wrap (None, 5) (-10) viewer_ten_scrolled /\
  _ticket_cache viewer_ten_scrolled <> [] /\ 1 <= visible_capacity (None, 5) /\
  0 <= offset viewer_ten_scrolled /\
  -10 <= - (offset viewer_ten_scrolled + index_highlighted viewer_ten_scrolled) /\
  offset (snd (scroll key_only (None, 5) (-10) viewer_ten_scrolled)) = 0 /\
  index_highlighted (snd (scroll key_only (None, 5) (-10) viewer_ten_scrolled)) = 0.
Proof.
  assert (H0 : no_wrap (None, 5) (-10) viewer_ten_scrolled)
    by (vm_compute; repeat split; discriminate).
  assert (H1 : _ticket_cache viewer_ten_scrolled <> []) by (vm_compute; discriminate).
  assert (H2 : 1 <= visible_capacity (None, 5)) by (vm_compute; discriminate).
  assert (H3 : 0 <= offset viewer_ten_scrolled) by (vm_compute; discriminate).
  assert (H4 : -10 <= - (offset viewer_ten_scrolled + index_highlighted viewer_ten_scrolled))
    by (vm_compute; discriminate).
  split; [vm_compute; reflexivity|].
  split; [exact H0|]. split; [exact H1|]. split; [exact H2|]. split; [exact H3|].
  split; [exact H4|].
  exact (scroll_to_top key_only (None, 5) (-10) viewer_ten_scrolled H0 H1 H2 H3 H4).
Defined.

(** From offset 0 and row 0 with three records cached, a movement of 10
    ends on the last row and on the last of the three. *)
Lemma scroll_to_cache_end_witness :
  no_wrap (None, 5) 10 viewer_ten /\
  1 <= visible_capacity (None, 5) /\
  offset viewer_ten <= len (_ticket_cache viewer_ten) - 1 /\
  (visible_capacity (None, 5) - 1 - index_highlighted viewer_ten) +
    (len (_ticket_cache viewer_ten) - 1 - offset viewer_ten) <= 10 /\
  offset (snd (scroll key_only (None, 5) 10 viewer_ten)) =
    len (_ticket_cache viewer_ten) - 1 /\
  index_highlighted (snd (scroll key_only (None, 5) 10 viewer_ten)) =
    visible_capacity (None, 5) - 1.
Proof.
  assert (H0 : no_wrap (None, 5) 10 viewer_ten)
    by (vm_compute; repeat split; discriminate).
  assert (H1 : 1 <= visible_capacity (None, 5)) by (vm_compute; discriminate).
  assert (H2 : offset viewer_ten <= len (_ticket_cache viewer_ten) - 1)
    by (vm_compute; discriminate).
  assert (H3 : (visible_capacity (None, 5) - 1 - index_highlighted viewer_ten) +
    (len (_ticket_cache viewer_ten) - 1 - offset viewer_ten) <= 10)
    by (vm_compute; discriminate).
  split; [exact H0|]. split; [exact H1|]. split; [exact H2|]. split; [exact H3|].
  exact (scroll_to_cache_end key_only (None, 5) 10 viewer_ten H0 H1 H2 H3).
Defined.

Lemma reachable_anchored_witness :
  reachable key_only viewer_ten /\ _ticket_cache viewer_ten <> [] /\
  0 <= offset viewer_ten <= len (_ticket_cache viewer_ten) - 1.
Proof.
  assert (H1 : reachable key_only viewer_ten) by exact (reach_init key_only ten_tickets).
  assert (H2 : _ticket_cache viewer_ten <> []) by (vm_compute; discriminate).
  split; [exact H1|]. split; [exact H2|].
  exact (reachable_anchored key_only viewer_ten H1 H2).
Defined.

Lemma reachable_columns_witness :
  reachable key_only viewer_none /\
  column_keys viewer_none = ["_selected"; "id"; "subject"; "type"; "priority"]%string /\
  Forall (fun column => exists cells, body column = ListBox cells)
    (contents viewer_none).
Proof.
  assert (H : reachable key_only viewer_none) by exact (reach_init key_only no_tickets).
  split; [exact H|]. exact (reachable_columns key_only viewer_none H).
Defined.

(** ** A source that ends *)

Section FiniteSource.

Context {Ticket : Type}.
Variable cell_content : string -> Ticket -> string.
Implicit Types (self : TicketList (Ticket:=Ticket)).

(** X18.  In every state the viewer can reach, on a source that can deliver
    [N] records in all, the cache never holds more than [N] records, and a
    fetch whose look-ahead 2 * limit + offset reaches [N] leaves all [N]
    records cached and the source exhausted. *)
Theorem get_tickets_reaches_end (N : nat) offset limit self :
  reachable cell_content self ->
  total_available (source (ticket_generator self)) N ->
  len (_ticket_cache self) <= Z.of_nat N /\
  (Z.of_nat N <= 2 * limit + offset ->
   len (_ticket_cache (snd (get_tickets offset limit self))) = Z.of_nat N /\
   exhausted (ticket_generator (snd (get_tickets offset limit self)))).
Proof.
  intros Hreach [HN Hbelow].
  assert (Hle : forall s, reachable cell_content s ->
            source (ticket_generator s) = source (ticket_generator self) ->
            (List.length (_ticket_cache s) <= N)%nat).
  { intros s Hs Esrc. destruct (reachable_is_faithful cell_content s Hs) as [_ Hnth].
    destruct (Nat.le_gt_cases (List.length (_ticket_cache s)) N) as [Hle | Hgt];
      [exact Hle|].
    exfalso. pose proof (Hnth N Hgt) as E. rewrite Esrc, HN in E.
    apply nth_error_None in E. lia. }
  split; [unfold len; pose proof (Hle self Hreach eq_refl); lia|].
  intros Hfar.
  pose proof (@reach_get_tickets _ cell_content self offset limit Hreach) as Hreach'.
  pose proof (get_tickets_spec offset limit self) as H. cbv zeta in H.
  destruct H as (_ & (_ & _ & Hs & _) & _ & Hend).
  pose proof (Hle _ Hreach' Hs) as Hle'.
  destruct (reachable_is_faithful cell_content _ Hreach') as [Hcoh _].
  destruct Hend as [Hlt | Hex]; [unfold len in Hlt; lia|].
  split; [|exact Hex].
  unfold exhausted in Hex. rewrite <- Hcoh, Hs in Hex.
  destruct (Nat.lt_ge_cases
              (List.length (_ticket_cache (snd (get_tickets offset limit self)))) N)
    as [Hp | Hp].
  - exfalso. exact (Hbelow _ Hp Hex).
  - unfold len. lia.
Qed.

(** X19.  In every state the viewer can reach, an empty cache means a
    source without any record: [__init__] has asked for the first records,
    so an empty table is an empty account, not one not yet loaded. *)
Theorem reachable_empty_cache self :
  reachable cell_content self ->
  _ticket_cache self = [] ->
  source (ticket_generator self) 0%nat = None.
Proof.
  intros Hreach Hnil.
  pose proof (reachable_primed cell_content self Hreach Hnil) as Hex.
  destruct (reachable_is_faithful cell_content self Hreach) as [Hcoh _].
  unfold exhausted in Hex. rewrite <- Hcoh, Hnil in Hex. exact Hex.
Qed.

End FiniteSource.

Lemma get_tickets_reaches_end_witness :
  reachable key_only viewer_ten /\
  total_available (source (ticket_generator viewer_ten)) 10 /\
  len (_ticket_cache viewer_ten) <= Z.of_nat 10 /\
  (Z.of_nat 10 <= 2 * 4 + 2 ->
   len (_ticket_cache (snd (get_tickets 2 4 viewer_ten))) = Z.of_nat 10 /\
   exhausted (ticket_generator (snd (get_tickets 2 4 viewer_ten)))).
Proof.
  assert (H1 : reachable key_only viewer_ten) by exact (reach_init key_only ten_tickets).
  assert (H2 : total_available (source (ticket_generator viewer_ten)) 10).
  { split; [reflexivity|]. intros i Hi.
    change (source (ticket_generator viewer_ten)) with ten_tickets.
    unfold ten_tickets. apply nth_error_Some. simpl. exact Hi. }
  split; [exact H1|]. split; [exact H2|].
  exact (get_tickets_reaches_end key_only 10 2 4 viewer_ten H1 H2).
Defined.

Lemma reachable_empty_cache_witness :
  reachable key_only viewer_none /\ _ticket_cache viewer_none = [] /\
  source (ticket_generator viewer_none) 0%nat = None.
Proof.
  assert (H1 : reachable key_only viewer_none) by exact (reach_init key_only no_tickets).
  assert (H2 : _ticket_cache viewer_none = []) by (vm_compute; reflexivity).
  split; [exact H1|]. split; [exact H2|].
  exact (reachable_empty_cache key_only viewer_none H1 H2).
Defined.
